(** * perplexity_api.py: browser automation behind POST /ask

    A shallow embedding of [src/perplexity_api.py].  Python strings are
    sequences of Unicode code points, so a text is a list of code points;
    the browser is an interface of fallible calls, and the code runs in a
    state-and-exception monad over the browser's state, a clock and the
    trace of the calls made.  The clock moves by the time each call takes
    and by the pauses of the code; what the code prints is left out. *)

From Stdlib Require Import Ascii String.
From Stdlib Require Uint63 PrimFloat.
From Stdlib Require Import List NArith ZArith Bool Lia Arith.
Import ListNotations.

Set Implicit Arguments.

(** ** Texts *)

Definition char := N.
Definition text := list char.

(** [str "abc"] is the Python literal ["abc"]. *)
Definition str (s : string) : text :=
  map N_of_ascii (list_ascii_of_string s).

Fixpoint text_eqb (a b : text) : bool :=
  match a, b with
  | [], [] => true
  | x :: a', y :: b' => N.eqb x y && text_eqb a' b'
  | _, _ => false
  end.

Definition len (t : text) : Z := Z.of_nat (length t).

(** [c in t] for a one-character [c]. *)
Definition contains (c : char) (t : text) : bool := existsb (N.eqb c) t.

(** The code points for which [str.isspace] holds; [str.strip] without an
    argument removes them from both ends. *)
Definition isspace (c : char) : bool :=
  ((9 <=? c) && (c <=? 13) || (28 <=? c) && (c <=? 32)
   || (c =? 133) || (c =? 160) || (c =? 5760)
   || (8192 <=? c) && (c <=? 8202)
   || (c =? 8232) || (c =? 8233) || (c =? 8239) || (c =? 8287)
   || (c =? 12288))%N.

Fixpoint lstrip (t : text) : text :=
  match t with
  | c :: t' => if isspace c then lstrip t' else t
  | [] => []
  end.

Definition rstrip (t : text) : text := rev (lstrip (rev t)).

Definition strip (t : text) : text := rstrip (lstrip t).

(** [s.startswith(p)] *)
Fixpoint starts_with (p s : text) : bool :=
  match p, s with
  | [], _ => true
  | a :: p', b :: s' => N.eqb a b && starts_with p' s'
  | _ :: _, [] => false
  end.

(** [s.split(sep)] scans [s] from the left and cuts at every occurrence of
    [sep] that does not overlap the previous one.  [skip] counts the
    characters of a matched separator still to be passed over, [cur] is the
    segment being collected.  Both call sites pass a non-empty literal
    separator (Python raises [ValueError] on an empty one). *)
Fixpoint split_from (sep : text) (skip : nat) (cur : text) (s : text)
  : list text :=
  match s with
  | [] => [cur]
  | c :: s' =>
      match skip with
      | S k => split_from sep k cur s'
      | O =>
          if starts_with sep s
          then cur :: split_from sep (length sep - 1) [] s'
          else split_from sep 0 (cur ++ [c]) s'
      end
  end.

Definition split (sep s : text) : list text := split_from sep 0 [] s.

(** [sep.join(parts)] *)
Fixpoint join (sep : text) (parts : list text) : text :=
  match parts with
  | [] => []
  | [x] => x
  | x :: rest => x ++ sep ++ join sep rest
  end.

(** [sep] occurs in [s] as a substring. *)
Definition occurs (sep s : text) : Prop :=
  exists a b, s = a ++ sep ++ b.

(** ** The thresholds as Python computes them *)

Module Py.

Import PrimFloat.

(** [count >= total * ratio] for two lengths and a [float] ratio: the
    product is a double, compared with the integer [count]. *)
Definition at_least (count total : Z) (ratio : float) : bool :=
  leb (mul (of_uint63 (Uint63.of_Z total)) ratio)
      (of_uint63 (Uint63.of_Z count)).

(** The [n] integers from [first] on. *)
Fixpoint upto (n : nat) (first : Z) : list Z :=
  match n with
  | O => []
  | S k => first :: upto k (first + 1)
  end.

(** The comparison in doubles and the comparison [num * total <= den * count]
    of integers give the same answer for all lengths up to [bound]. *)
Definition agree (ratio : float) (num den : Z) (bound : nat) : bool :=
  forallb (fun total =>
    forallb (fun count =>
      Bool.eqb (at_least count total ratio)
               (Z.leb (num * total) (den * count)))
      (upto (S bound) 0))
    (upto (S bound) 0).

(** The same at the two counts on either side of the threshold, for all
    totals up to [bound]. *)
Definition agree_at_threshold (ratio : float) (num den : Z) (bound : nat)
  : bool :=
  forallb (fun total =>
    let count := Z.div (num * total + den - 1) den in
    at_least count total ratio
    && (Z.eqb count 0 || negb (at_least (count - 1) total ratio)))
    (upto (S bound) 0).

(** The ratios of the code; the first two are the doubles nearest to the
    decimals written. *)
#[warnings="-inexact-float"] Definition ninety_five : float := 0.95.
#[warnings="-inexact-float"] Definition eighty : float := 0.8.
Definition half : float := 0.5.

End Py.

(** ** Exceptions, results and the browser interface *)

Inductive exn : Type :=
| Exception (msg : string)
| HTTPException (status_code : Z) (detail : string).

Inductive result (A : Type) : Type :=
| Val (a : A)
| Exn (e : exn).
Arguments Exn {A} e.

(** A [WebElement]. *)
Definition handle := nat.

(** The calls the code makes on the browser, with their arguments.
    [locate_and_copy] stands for lines 237-457 of [getResult] (waiting for
    the generation to end, scrolling, finding and clicking the copy
    control): the properties below depend on it only through whether it
    raises. *)
Inductive call : Type :=
| Driver (user_data_dir : string)
| uc_open_with_reconnect (url : string) (reconnect_time : Z)
| quit
| find_element (selector : string)
| click (el : handle)
| clear (el : handle)
| send_keys (el : handle) (keys : text)
| get_attribute (el : handle) (name : string)
| get_text (el : handle)
| is_displayed (el : handle)
| script_click (el : handle)
| locate_and_copy
| clipboard_readText.

Definition returns (c : call) : Type :=
  match c with
  | find_element _ => handle
  | get_attribute _ _ => option text
  | get_text _ => text
  | is_displayed _ => bool
  | clipboard_readText => option text
  | _ => unit
  end.

(** What a call gives back: a value or the message of the exception it
    raises, and the time it took in milliseconds. *)
Record reply (A : Type) : Type := Reply {
  outcome : A + string;
  took : nat
}.

Record browser (W : Type) : Type := Browser {
  answer : forall c : call, W -> reply (returns c) * W
}.

Inductive event : Type :=
| Called (c : call) (ok : bool)
| Slept (ms : Z).

(** [selenium.webdriver.common.keys.Keys] *)
Definition Keys_RETURN : text := [57350%N].
Definition Keys_ENTER : text := [57351%N].
Definition Keys_SHIFT : text := [57352%N].
Definition Keys_CONTROL : text := [57353%N].

Definition newline : text := [10%N].

(** Which of the two [return True] of the detector was taken. *)
Inductive verdict : Type := Stable | Stalled.

(** The detector's local variables. *)
Record progress : Type := Progress {
  last_text : text;
  stable_count : Z;
  last_progress_time : Z
}.

(** A loop body either leaves the loop or goes round again, with the value
    of the variable the loop assigns. *)
Inductive flow (A : Type) : Type :=
| Break (a : A)
| Next (a : A).

Section Automation.

Variable W : Type.
Variable B : browser W.

(** The system a request runs in.  The clock is in milliseconds. *)
Record sys : Type := Sys {
  clock : Z;
  page : W;
  trace : list event
}.

Definition M (A : Type) : Type := sys -> result A * sys.

Definition ret {A} (a : A) : M A := fun s => (Val a, s).

Definition bind {A C} (m : M A) (k : A -> M C) : M C :=
  fun s => match m s with
           | (Val a, s') => k a s'
           | (Exn e, s') => (Exn e, s')
           end.

Definition raise {A} (e : exn) : M A := fun s => (Exn e, s).

(** [try: m except Exception as e: handler e] *)
Definition try_except {A} (m : M A) (handler : exn -> M A) : M A :=
  fun s => match m s with
           | (Val a, s') => (Val a, s')
           | (Exn e, s') => handler e s'
           end.

(** [m] with its exception, if any, turned into a value: the first half of
    a [try] whose handler needs the variables assigned before the raise. *)
Definition catch {A} (m : M A) : M (A + exn) :=
  fun s => match m s with
           | (Val a, s') => (Val (inl a), s')
           | (Exn e, s') => (Val (inr e), s')
           end.

(** [try: m finally: cleanup] *)
Definition try_finally {A} (m : M A) (cleanup : M unit) : M A :=
  fun s => match m s with
           | (r, s') =>
               match cleanup s' with
               | (Val _, s'') => (r, s'')
               | (Exn e, s'') => (Exn e, s'')
               end
           end.

(** A call on the browser: it takes its time, is written to the trace, and
    returns or raises as the browser answers. *)
Definition perform (c : call) : M (returns c) :=
  fun s =>
    let (r, w) := answer B c (page s) in
    let t := (clock s + Z.of_nat (took r))%Z in
    match outcome r with
    | inl a => (Val a, Sys t w (trace s ++ [Called c true]))
    | inr msg => (Exn (Exception msg), Sys t w (trace s ++ [Called c false]))
    end.

(** [time.time()] *)
Definition time_time : M Z := fun s => (Val (clock s), s).

(** [time.sleep] and [driver.sleep] *)
Definition sleep (ms : Z) : M unit :=
  fun s => (Val tt, Sys (clock s + ms)%Z (page s) (trace s ++ [Slept ms])).

End Automation.

Arguments ret {W A} a.
Arguments raise {W A} e.
Arguments time_time {W}.
Arguments sleep {W} ms.

Declare Scope monad_scope.
Delimit Scope monad_scope with monad.
Notation "x <- m ;; k" := (bind m (fun x => k))
  (at level 61, m at next level, right associativity) : monad_scope.
Notation "m ;; k" := (bind m (fun _ => k))
  (at level 61, right associativity) : monad_scope.
Open Scope monad_scope.
Open Scope Z_scope.

(** ** The program *)

(** The request body of [POST /ask]. *)
Record PromptRequest : Type := {
  prompt : text;
  use_research_mode : bool
}.

(** The body of an HTTP response: [{"response": ...}] or [{"detail": ...}]. *)
Inductive body : Type :=
| response_body (response : text)
| detail_body (detail : string).

Record http_response : Type := {
  status : Z;
  content : body
}.

Section Program.

Variable W : Type.
Variable B : browser W.

(** [str(e)] of an [HTTPException] is the framework's; the code only ever
    passes the string on. *)
Variable str_HTTPException : Z -> string -> string.

Definition str_of (e : exn) : string :=
  match e with
  | Exception msg => msg
  | HTTPException c d => str_HTTPException c d
  end.

Local Abbreviation driver := (perform B).

Definition safe_find_input : M W handle :=
  driver (find_element "div[contenteditable='true']").

(** [el.get_attribute('textContent') or el.text] *)
Definition read_text (el : handle) : M W text :=
  t <- driver (get_attribute el "textContent");;
  match t with
  | Some (c :: t') => ret (c :: t')
  | _ => driver (get_text el)
  end.

(** *** wait_for_typing_completion (lines 21-69) *)

(** The comparisons against [len(expected_text) * 0.95], [* 0.8] and
    [* 0.5] are written over the integers: the doubles nearest 0.95 and 0.8
    are close enough to them that the product with a length rounds to the
    exact value whenever that is an integer, and is further than the
    rounding error from every integer otherwise (0.5 is a double).  Lemma
    [thresholds_as_integers] checks the agreement on the doubles
    themselves for the lengths of prompts. *)

(** Lines 36-50: the stability counter. *)
Definition count_stable (expected_text current_text : text) (st : progress)
  : M W (progress + verdict) :=
  if text_eqb current_text (last_text st) then
    let stable_count := stable_count st + 1 in
    if 6 <=? stable_count then
      if 19 * len expected_text <=? 20 * len current_text then
        ret (inr Stable)
      else if 0 <? len current_text then
        ret (inl (Progress (last_text st) 0 (last_progress_time st)))
      else
        ret (inl (Progress (last_text st) stable_count (last_progress_time st)))
    else
      ret (inl (Progress (last_text st) stable_count (last_progress_time st)))
  else
    if 0 <? len current_text then
      now <- time_time;;
      ret (inl (Progress current_text 0 now))
    else
      ret (inl (Progress current_text 0 (last_progress_time st))).

(** Lines 52-62: the stall check and the pause before the next sample. *)
Definition check_stall (expected_text current_text : text) (st : progress)
  : M W (progress + verdict) :=
  now <- time_time;;
  if 60000 <? now - last_progress_time st then
    if 4 * len expected_text <=? 5 * len current_text then
      ret (inr Stalled)
    else
      now <- time_time;;
      sleep 200;;
      ret (inl (Progress (last_text st) (stable_count st) now))
  else
    sleep 200;;
    ret (inl st).

(** One sample: the stripped text of the input field. *)
Definition sample : M W text :=
  current_input <- safe_find_input;;
  current_text <- read_text current_input;;
  ret (strip current_text).

(** The body of the [while] loop.  Only the reads of [sample] can raise, and
    they come before any assignment, so the handler resumes with the
    variables as they were. *)
Definition poll (expected_text : text) (st : progress)
  : M W (progress + verdict) :=
  try_except
    (current_text <- sample;;
     r <- count_stable expected_text current_text st;;
     match r with
     | inr v => ret (inr v)
     | inl st' => check_stall expected_text current_text st'
     end)
    (fun _ => sleep 200;; ret (inl st)).

(** The [while] loop.  Every round sleeps 200ms, so the test
    [time.time() - start_time < max_wait] fails after at most
    [max_wait / 200] rounds (rounded up): [rounds] is never what ends the
    loop when it starts from [polls max_wait] (lemma [wait_loop_rounds]). *)
Fixpoint wait_loop (rounds : nat) (expected_text : text) (max_wait : Z)
  (start_time : Z) (st : progress) : M W bool :=
  match rounds with
  | O => ret false
  | S rounds' =>
      now <- time_time;;
      if now - start_time <? max_wait then
        r <- poll expected_text st;;
        match r with
        | inr _ => ret true
        | inl st' => wait_loop rounds' expected_text max_wait start_time st'
        end
      else ret false
  end.

Definition polls (max_wait : Z) : nat := S (Z.to_nat ((max_wait + 199) / 200)).

Definition wait_for_typing_completion (expected_text : text) (max_wait : Z)
  : M W bool :=
  start_time <- time_time;;
  wait_loop (polls max_wait) expected_text max_wait start_time
    (Progress [] 0 start_time).

(** *** select_research_mode (lines 71-120) *)

(** One round of the lookup loop; [None] is the [return False] of the last
    round. *)
Definition research_attempt (attempt max_attempts : Z)
  (research_button : option handle)
  : M W (option (flow (option handle))) :=
  let except_ (research_button : option handle) :=
    if attempt <? max_attempts - 1 then
      sleep 1000;; ret (Some (Next research_button))
    else ret None in
  r <- catch (driver (find_element "[data-testid='search-mode-research']"));;
  match r with
  | inr _ => except_ research_button
  | inl b =>
      d <- catch (driver (is_displayed b));;
      match d with
      | inr _ => except_ (Some b)
      | inl true => ret (Some (Break (Some b)))
      | inl false => ret (Some (Next None))
      end
  end.

Fixpoint research_lookup (attempts : list Z) (max_attempts : Z)
  (research_button : option handle) : M W (option (option handle)) :=
  match attempts with
  | [] => ret (Some research_button)
  | attempt :: rest =>
      r <- research_attempt attempt max_attempts research_button;;
      match r with
      | None => ret None
      | Some (Break b) => ret (Some b)
      | Some (Next b) => research_lookup rest max_attempts b
      end
  end.

Definition select_research_mode : M W bool :=
  try_except
    (r <- research_lookup [0; 1; 2] 3 None;;
     match r with
     | None => ret false
     | Some (Some research_button) =>
         try_except
           (driver (click research_button);;
            sleep 500;;
            ret true)
           (fun _ =>
              try_except
                (driver (script_click research_button);;
                 sleep 500;;
                 ret true)
                (fun _ => ret false))
     | Some None => ret false
     end)
    (fun _ => ret false).

(** *** inputFieldCheck (lines 122-232) *)

(** Lines 137-140: [for i, part in enumerate(parts)], with [n = len(parts)]. *)
Fixpoint type_parts (input_div : handle) (n : Z) (i : Z) (parts : list text)
  : M W unit :=
  match parts with
  | [] => ret tt
  | part :: rest =>
      driver (send_keys input_div part);;
      (if i <? n - 1 then
         driver (send_keys input_div (Keys_SHIFT ++ Keys_ENTER))
       else ret tt);;
      type_parts input_div n (i + 1) rest
  end.

(** Lines 134-142. *)
Definition type_prompt (input_div : handle) (contentToType : text)
  : M W unit :=
  if contains 10%N contentToType then
    let parts := split newline contentToType in
    type_parts input_div (Z.of_nat (length parts)) 0 parts
  else
    driver (send_keys input_div contentToType).

(** Lines 126-145: focus, clear, type, and wait for the typing to show. *)
Definition enter_prompt (contentToType : text) : M W bool :=
  input_div <- safe_find_input;;
  driver (click input_div);;
  sleep 500;;
  input_div <- safe_find_input;;
  driver (clear input_div);;
  type_prompt input_div contentToType;;
  wait_for_typing_completion contentToType 300000.

(** Lines 149-157: the last look at the field after the detector timed
    out.  The [raise] of line 154 is inside the [try], so its handler
    replaces it by the exception of line 157. *)
Definition final_text_check (contentToType : text) : M W unit :=
  try_except
    (current_input <- safe_find_input;;
     final_text <- read_text current_input;;
     if 2 * len (strip final_text) <? len contentToType then
       raise (Exception
         "Typing failed - text is severely incomplete even after extended wait")
     else ret tt)
    (fun _ =>
       raise (Exception "Cannot verify text completion after extended wait")).

(** Lines 188-195: [try: ... except: pass] around the second lookup. *)
Definition aria_fallback (submit_button : option handle)
  : M W (option handle) :=
  r <- catch (driver (find_element "button[aria-label='Submit']"));;
  match r with
  | inr _ => ret submit_button
  | inl b =>
      d <- catch (driver (is_displayed b));;
      match d with
      | inr _ => ret (Some b)
      | inl true => ret (Some b)
      | inl false => ret None
      end
  end.

(** Lines 173-195: one round of the submit-control loop, [attempt] already
    incremented. *)
Definition submit_attempt (attempt max_attempts : Z)
  (submit_button : option handle) : M W (flow (option handle)) :=
  let except_ (submit_button : option handle) :=
    if attempt =? max_attempts then
      b <- aria_fallback submit_button;; ret (Next b)
    else ret (Next submit_button) in
  sleep 200;;
  r <- catch (driver (find_element "button[data-testid='submit-button']"));;
  match r with
  | inr _ => except_ submit_button
  | inl b =>
      d <- catch (driver (is_displayed b));;
      match d with
      | inr _ => except_ (Some b)
      | inl true => ret (Break (Some b))
      | inl false => ret (Next None)
      end
  end.

(** Line 172: [while attempt < max_attempts and not submit_button]; the loop
    adds one to [attempt] each round, so [max_attempts] rounds are all it
    can make. *)
Fixpoint find_submit (rounds : nat) (attempt max_attempts : Z)
  (submit_button : option handle) : M W (option handle) :=
  match rounds with
  | O => ret submit_button
  | S rounds' =>
      match submit_button with
      | Some _ => ret submit_button
      | None =>
          if attempt <? max_attempts then
            let attempt := attempt + 1 in
            r <- submit_attempt attempt max_attempts submit_button;;
            match r with
            | Break b => ret b
            | Next b => find_submit rounds' attempt max_attempts b
            end
          else ret submit_button
      end
  end.

(** Lines 206-217: the body of the keyboard fallback's [try]. *)
Definition keyboard_submit (contentToType : text) : M W unit :=
  fresh_input <- safe_find_input;;
  current_text <- read_text fresh_input;;
  (if len (strip current_text) =? 0 then
     driver (send_keys fresh_input contentToType);;
     sleep 200
   else ret tt);;
  driver (send_keys fresh_input (Keys_CONTROL ++ Keys_RETURN));;
  sleep 2000.

(** Lines 222-225. *)
Definition enter_submit : M W unit :=
  fresh_input <- safe_find_input;;
  driver (send_keys fresh_input Keys_ENTER);;
  sleep 2000.

(** Lines 197-228. *)
Definition dispatch_submit (contentToType : text)
  (submit_button : option handle) : M W unit :=
  match submit_button with
  | Some b =>
      driver (click b);;
      sleep 3000
  | None =>
      try_except (keyboard_submit contentToType)
        (fun _ =>
           try_except enter_submit
             (fun _ =>
                raise (Exception "Submit failed - all methods exhausted")))
  end.

(** Lines 159-228: what follows the typing. *)
Definition mode_and_submit (contentToType : text) (use_research_mode : bool)
  : M W unit :=
  (if use_research_mode then
     research_selected <- select_research_mode;;
     ret tt
   else ret tt);;
  submit_button <- find_submit 3 0 3 None;;
  dispatch_submit contentToType submit_button.

Definition inputFieldCheck (contentToType : text) (use_research_mode : bool)
  : M W unit :=
  try_except
    (typing_completed <- enter_prompt contentToType;;
     (if negb typing_completed then final_text_check contentToType
      else ret tt);;
     mode_and_submit contentToType use_research_mode)
    (fun e => raise e).

(** *** getResult (lines 235-485) *)

(** Lines 464-473: the clipboard is read up to three times. *)
Fixpoint read_clipboard (attempts : list Z) (clipboard_content : option text)
  : M W (option text) :=
  match attempts with
  | [] => ret clipboard_content
  | clipboard_attempt :: rest =>
      r <- catch (driver clipboard_readText);;
      match r with
      | inl (Some (c :: t)) => ret (Some (c :: t))
      | inl clipboard_content =>
          sleep 1000;;
          read_clipboard rest clipboard_content
      | inr _ =>
          (if clipboard_attempt <? 2 then sleep 1000 else ret tt);;
          read_clipboard rest clipboard_content
      end
  end.

(** Line 476. *)
Definition cleaned_citation_string (clipboard_content : text) : text :=
  match clipboard_content with
  | [] => []
  | _ => hd [] (split (str "[1]") clipboard_content)
  end.

Definition getResult : M W text :=
  try_except
    (driver locate_and_copy;;
     sleep 3000;;
     clipboard_content <- read_clipboard [0; 1; 2] None;;
     match clipboard_content with
     | Some (c :: t) => ret (cleaned_citation_string (c :: t))
     | _ =>
         raise (Exception
           "Failed to read clipboard content after multiple attempts")
     end)
    (fun e => raise e).

(** *** run_perplexity and the endpoint (lines 488-531) *)

(** [os.getenv(name, default)], given the value of the variable. *)
Definition getenv (value : option string) (default : string) : string :=
  match value with
  | Some d => d
  | None => default
  end.

(** [driver] is still [None] in the [finally] exactly when [Driver(...)]
    raised; [CHROME_PROFILE_DIR] is the environment variable. *)
Definition run_perplexity (CHROME_PROFILE_DIR : option string)
  (prompt : text) (use_research_mode : bool) : M W text :=
  let profile_dir := getenv CHROME_PROFILE_DIR "./chrome-debug-4" in
  let except_ (e : exn) : M W text :=
    raise (HTTPException 500
             ("Error processing request: " ++ str_of e)%string) in
  r <- catch (driver (Driver profile_dir));;
  match r with
  | inr e => except_ e
  | inl _ =>
      try_finally
        (try_except
           (driver (uc_open_with_reconnect "https://perplexity.ai" 6);;
            sleep 10000;;
            inputFieldCheck prompt use_research_mode;;
            aiOutput <- getResult;;
            ret aiOutput)
           except_)
        (driver quit)
  end.

Definition ask_perplexity (CHROME_PROFILE_DIR : option string)
  (request : PromptRequest) : M W text :=
  try_except
    (result <- run_perplexity CHROME_PROFILE_DIR
                 (prompt request) (use_research_mode request);;
     ret result)
    (fun e => raise (HTTPException 500 (str_of e))).

(** What the framework sends for [POST /ask]: 200 with the returned
    dictionary, or the status and detail of the [HTTPException] raised. *)
Definition POST_ask (CHROME_PROFILE_DIR : option string)
  (request : PromptRequest) (s : sys W) : http_response * sys W :=
  match ask_perplexity CHROME_PROFILE_DIR request s with
  | (Val result, s') => ({| status := 200; content := response_body result |}, s')
  | (Exn (HTTPException c d), s') => ({| status := c; content := detail_body d |}, s')
  | (Exn (Exception _), s') =>
      ({| status := 500; content := detail_body "Internal Server Error" |}, s')
  end.

End Program.

(** ** Notions the properties are stated with *)

(** Lines 36-60 as a function of the sampled text and of the reading [now]
    of the clock: no call on the browser comes between the sample and the
    pause, so every [time.time()] of one round reads the same clock. *)
Definition judge (expected_text current_text : text) (now : Z)
  (st : progress) : progress + verdict :=
  let counted : progress + verdict :=
    if text_eqb current_text (last_text st) then
      if 6 <=? stable_count st + 1 then
        if 19 * len expected_text <=? 20 * len current_text then inr Stable
        else if 0 <? len current_text then
          inl (Progress (last_text st) 0 (last_progress_time st))
        else
          inl (Progress (last_text st) (stable_count st + 1)
                 (last_progress_time st))
      else
        inl (Progress (last_text st) (stable_count st + 1)
               (last_progress_time st))
    else if 0 <? len current_text then inl (Progress current_text 0 now)
    else inl (Progress current_text 0 (last_progress_time st)) in
  match counted with
  | inr v => inr v
  | inl st' =>
      if 60000 <? now - last_progress_time st' then
        if 4 * len expected_text <=? 5 * len current_text then inr Stalled
        else inl (Progress (last_text st') (stable_count st') now)
      else inl st'
  end.

(** How many samples in a row, ending with [current], left the text as the
    sample before it had it; [before] holds the earlier samples, newest
    first, and the text before the first sample is the empty [last_text]
    the detector starts with. *)
Fixpoint unchanged (current : text) (before : list text) : nat :=
  match before with
  | [] => if text_eqb current [] then 1 else 0
  | previous :: earlier =>
      if text_eqb current previous then S (unchanged previous earlier) else 0
  end.

(** The same count for the newest sample of a history. *)
Definition streak (h : list text) : nat :=
  match h with
  | [] => 0
  | newest :: earlier => unchanged newest earlier
  end.

(** The texts given to [send_keys], in order. *)
Fixpoint keys_sent (evs : list event) : list text :=
  match evs with
  | Called (send_keys _ keys) _ :: rest => keys :: keys_sent rest
  | _ :: rest => keys_sent rest
  | [] => []
  end.

(** The segments of a prompt with the soft newline between them. *)
Fixpoint with_soft_newlines (parts : list text) : list text :=
  match parts with
  | [] => []
  | [part] => [part]
  | part :: rest => part :: (Keys_SHIFT ++ Keys_ENTER) :: with_soft_newlines rest
  end.

(** Sessions opened: [Driver(...)] returned.  Sessions closed: [quit()]
    was called. *)
Fixpoint sessions_opened (evs : list event) : nat :=
  match evs with
  | Called (Driver _) true :: rest => S (sessions_opened rest)
  | _ :: rest => sessions_opened rest
  | [] => 0
  end.

Fixpoint sessions_closed (evs : list event) : nat :=
  match evs with
  | Called quit _ :: rest => S (sessions_closed rest)
  | _ :: rest => sessions_closed rest
  | [] => 0
  end.

(** An event of the page, as opposed to the opening or closing of a
    session. *)
Definition on_page (ev : event) : Prop :=
  match ev with
  | Called (Driver _) _ => False
  | Called quit _ => False
  | _ => True
  end.

(** The events of one kind in a trace. *)
Definition is_lookup (selector : string) (ev : event) : bool :=
  match ev with
  | Called (find_element sel) _ => String.eqb sel selector
  | _ => false
  end.

Definition is_pause (ms : Z) (ev : event) : bool :=
  match ev with
  | Slept d => d =? ms
  | _ => false
  end.

Definition tally (f : event -> bool) (evs : list event) : nat :=
  length (filter f evs).

(** Every lookup of the submit control by its test identifier comes right
    after a pause of 200ms. *)
Fixpoint spaced (after_pause : bool) (evs : list event) : bool :=
  match evs with
  | [] => true
  | ev :: rest =>
      (if is_lookup "button[data-testid='submit-button']" ev
       then after_pause else true)
      && spaced (is_pause 200 ev) rest
  end.

Definition raised (ev : event) : bool :=
  match ev with
  | Called _ false => true
  | _ => false
  end.

(** Every lookup of the submit control by its label comes right after a
    call that raised. *)
Fixpoint only_after_failure (after_failure : bool) (evs : list event)
  : bool :=
  match evs with
  | [] => true
  | ev :: rest =>
      (if is_lookup "button[aria-label='Submit']" ev
       then after_failure else true)
      && only_after_failure (raised ev) rest
  end.

(** The last progress recorded, as the stall rule words it, after the
    samples [h] of a run started at [start_time], each with the time it was
    taken at and the newest first: the time of the last sample whose text
    differed from the one before and was not empty, or of the last stall
    check that failed (a sample more than 60s after the progress recorded
    till then, on a text under 80% of the prompt), and the start when there
    is neither.  The text before the first sample is the empty text. *)
Fixpoint recorded_progress (expected_text : text) (start_time : Z)
  (h : list (text * Z)) : Z :=
  match h with
  | [] => start_time
  | (current, now) :: earlier =>
      let recorded := recorded_progress expected_text start_time earlier in
      let previous := hd [] (map fst earlier) in
      if negb (text_eqb current previous) && (0 <? len current) then now
      else if (60000 <? now - recorded)
              && (5 * len current <? 4 * len expected_text) then now
      else recorded
  end.

Section Observations.

Variable W : Type.
Variable B : browser W.

(** The state a pause leaves. *)
Definition slept (ms : Z) (s : sys W) : sys W :=
  Sys (clock s + ms) (page s) (trace s ++ [Slept ms]).

(** [m] only appends to the trace, and only events satisfying [P]. *)
Definition emits {A} (P : event -> Prop) (m : M W A) : Prop :=
  forall s, exists evs,
    trace (snd (m s)) = trace s ++ evs /\ Forall P evs.

(** The first [n] rounds of the detector's loop, without its ceiling. *)
Fixpoint repeat_poll (n : nat) (expected_text : text) (st : progress)
  : M W (progress + verdict) :=
  match n with
  | O => ret (inl st)
  | S n' =>
      r <- poll B expected_text st;;
      match r with
      | inl st' => repeat_poll n' expected_text st'
      | inr v => ret (inr v)
      end
  end.

(** The texts read in those rounds, newest first, put before [h]. *)
Fixpoint seen (n : nat) (expected_text : text) (st : progress) (s : sys W)
  (h : list text) : list text :=
  match n with
  | O => h
  | S n' =>
      match poll B expected_text st s with
      | (Val (inl st'), s') =>
          seen n' expected_text st' s'
            match sample B s with
            | (Val current, _) => current :: h
            | (Exn _, _) => h
            end
      | _ => h
      end
  end.

(** [polled e st0 s0 h st s]: started with the variables [st0] in the
    system [s0], the loop is, some rounds later and without having
    returned, about to sample in [s] with the variables [st], after having
    read the texts [h], newest first. *)
Inductive polled (e : text)
  : progress -> sys W -> list text -> progress -> sys W -> Prop :=
| polled_start st s : polled e st s [] st s
| polled_sample st0 s0 h st s current s1 st' s' :
    polled e st0 s0 h st s ->
    sample B s = (Val current, s1) ->
    poll B e st s = (Val (inl st'), s') ->
    polled e st0 s0 (current :: h) st' s'
| polled_raise st0 s0 h st s x s1 st' s' :
    polled e st0 s0 h st s ->
    sample B s = (Exn x, s1) ->
    poll B e st s = (Val (inl st'), s') ->
    polled e st0 s0 h st' s'.

(** [polled] with the time of each sample: the reading of the clock once
    the text is read, which is what every [time.time()] of that round
    returns. *)
Inductive timed (e : text)
  : progress -> sys W -> list (text * Z) -> progress -> sys W -> Prop :=
| timed_start st s : timed e st s [] st s
| timed_sample st0 s0 h st s current s1 st' s' :
    timed e st0 s0 h st s ->
    sample B s = (Val current, s1) ->
    poll B e st s = (Val (inl st'), s') ->
    timed e st0 s0 ((current, clock s1) :: h) st' s'
| timed_raise st0 s0 h st s x s1 st' s' :
    timed e st0 s0 h st s ->
    sample B s = (Exn x, s1) ->
    poll B e st s = (Val (inl st'), s') ->
    timed e st0 s0 h st' s'.

(** The texts read in the first [n] rounds with their times, newest first,
    put before [h]. *)
Fixpoint seen_at (n : nat) (expected_text : text) (st : progress)
  (s : sys W) (h : list (text * Z)) : list (text * Z) :=
  match n with
  | O => h
  | S n' =>
      match poll B expected_text st s with
      | (Val (inl st'), s') =>
          seen_at n' expected_text st' s'
            match sample B s with
            | (Val current, s1) => (current, clock s1) :: h
            | (Exn _, _) => h
            end
      | _ => h
      end
  end.

(** The stripped text of the field is [x] at every read, and reads take no
    time. *)
Definition frozen_at (x : text) : Prop :=
  forall s : sys W, exists s1, sample B s = (Val x, s1) /\ clock s1 = clock s.

End Observations.

(** ** Pages to run the program on *)

(** A page that answers a call the same way whenever it is made, at
    once. *)
Record scene : Type := {
  launches : bool;
  field_present : bool;
  field_text : text;
  toggle_present : bool;
  submit_present : bool;
  submit_clickable : bool;
  clipboard : option text
}.

Definition staged_answer (sc : scene) (c : call) : returns c + string :=
  match c return returns c + string with
  | Driver _ =>
      if launches sc then inl tt else inr "session not created"%string
  | find_element sel =>
      if String.eqb sel "div[contenteditable='true']" then
        if field_present sc then inl 1%nat
        else inr "no such element"%string
      else if String.eqb sel "[data-testid='search-mode-research']" then
        if toggle_present sc then inl 2%nat
        else inr "no such element"%string
      else if String.eqb sel "button[data-testid='submit-button']" then
        if submit_present sc then inl 3%nat
        else inr "no such element"%string
      else inr "no such element"%string
  | click el =>
      if (el =? 3)%nat && negb (submit_clickable sc)
      then inr "element click intercepted"%string
      else inl tt
  | get_attribute _ _ => inl (Some (field_text sc))
  | get_text _ => inl (field_text sc)
  | is_displayed _ => inl true
  | clipboard_readText => inl (clipboard sc)
  | _ => inl tt
  end.

Definition staged (sc : scene) : browser unit :=
  Browser (fun c w => (Reply (staged_answer sc c) 0, w)).

(** The page with the submit control and without the mode toggle, its
    field showing [shown]. *)
Definition scene_showing (shown : text) : scene := {|
  launches := true;
  field_present := true;
  field_text := shown;
  toggle_present := false;
  submit_present := true;
  submit_clickable := true;
  clipboard := Some (str "Answer text [1][2] more")
|}.

(** The same page with a submit control whose click is intercepted. *)
Definition scene_intercepted (shown : text) : scene := {|
  launches := true;
  field_present := true;
  field_text := shown;
  toggle_present := false;
  submit_present := true;
  submit_clickable := false;
  clipboard := Some (str "Answer text [1][2] more")
|}.


(** A browser that cannot be launched. *)
Definition scene_no_launch : scene := {|
  launches := false;
  field_present := true;
  field_text := [];
  toggle_present := false;
  submit_present := true;
  submit_clickable := true;
  clipboard := None
|}.

(** A prompt of one hundred characters, and fields showing part of it. *)
Definition hundred : text := repeat 97%N 100.
Definition eighty : text := repeat 97%N 80.
Definition seventy_nine : text := repeat 97%N 79.

(** The prompt of the end-to-end scenario. *)
Definition two_lines : text :=
  str "Explain X" ++ newline ++ str "In two sentences".

(** A field whose text changes at every read between two texts, the
    number of reads so far being the state of the page. *)
Definition flicker (a b : text) : browser nat :=
  Browser (fun c n =>
    match c return reply (returns c) * nat with
    | find_element _ => (Reply (inl 1%nat) 0, n)
    | get_attribute _ _ =>
        (Reply (inl (Some (if Nat.even n then a else b))) 0, S n)
    | get_text _ => (Reply (inl (if Nat.even n then a else b)) 0, S n)
    | is_displayed _ => (Reply (inl true) 0, n)
    | clipboard_readText => (Reply (inl None) 0, n)
    | Driver _ => (Reply (inl tt) 0, n)
    | uc_open_with_reconnect _ _ => (Reply (inl tt) 0, n)
    | quit => (Reply (inl tt) 0, n)
    | click _ => (Reply (inl tt) 0, n)
    | clear _ => (Reply (inl tt) 0, n)
    | send_keys _ _ => (Reply (inl tt) 0, n)
    | script_click _ => (Reply (inl tt) 0, n)
    | locate_and_copy => (Reply (inl tt) 0, n)
    end).

(** A field that shows [a] at its first [n] reads and [b] from then on,
    the number of reads so far being the state of the page. *)
Definition late (n : nat) (a b : text) : browser nat :=
  Browser (fun c k =>
    match c return reply (returns c) * nat with
    | find_element _ => (Reply (inl 1%nat) 0, k)
    | get_attribute _ _ =>
        (Reply (inl (Some (if (k <? n)%nat then a else b))) 0, S k)
    | get_text _ => (Reply (inl (if (k <? n)%nat then a else b)) 0, S k)
    | is_displayed _ => (Reply (inl true) 0, k)
    | clipboard_readText => (Reply (inl None) 0, k)
    | Driver _ => (Reply (inl tt) 0, k)
    | uc_open_with_reconnect _ _ => (Reply (inl tt) 0, k)
    | quit => (Reply (inl tt) 0, k)
    | click _ => (Reply (inl tt) 0, k)
    | clear _ => (Reply (inl tt) 0, k)
    | send_keys _ _ => (Reply (inl tt) 0, k)
    | script_click _ => (Reply (inl tt) 0, k)
    | locate_and_copy => (Reply (inl tt) 0, k)
    end).

Definition fifty : text := repeat 97%N 50.


(** The system at the start of a run: clock at 0, nothing traced. *)
Definition boot {W} (w : W) : sys W := Sys 0 w [].

(** [str(e)] of an [HTTPException] for the runs below. *)
Definition plain_detail (status_code : Z) (detail : string) : string := detail.


(** ** Further notions *)

(** What the detector may do: look the input field up, read it, and pause
    200ms. *)
Definition watching (ev : event) : Prop :=
  match ev with
  | Called (find_element sel) _ => sel = "div[contenteditable='true']"%string
  | Called (get_attribute _ name) _ => name = "textContent"%string
  | Called (get_text _) _ => True
  | Slept ms => ms = 200
  | _ => False
  end.

(** A click, native or scripted, that went through. *)
Definition went_through (ev : event) : bool :=
  match ev with
  | Called (click _) true => true
  | Called (script_click _) true => true
  | _ => false
  end.

(** An event that has nothing to do with the mode toggle: no lookup of it,
    and no scripted click. *)
Definition off_toggle (ev : event) : Prop :=
  match ev with
  | Called (find_element sel) _ =>
      String.eqb sel "[data-testid='search-mode-research']" = false
  | Called (script_click _) _ => False
  | _ => True
  end.

Definition is_read (ev : event) : bool :=
  match ev with
  | Called clipboard_readText _ => true
  | _ => false
  end.

(** The milliseconds a trace spends in pauses. *)
Fixpoint paused (evs : list event) : Z :=
  match evs with
  | Slept ms :: rest => ms + paused rest
  | _ :: rest => paused rest
  | [] => 0
  end.

(** [m] raises nothing but plain [Exception]s. *)
Definition plain {W A} (m : M W A) : Prop :=
  forall s e s', m s = (Exn e, s') -> exists msg, e = Exception msg.

(** A clipboard that is empty at the first read and holds text from the
    second on, the number of reads so far being the state of the page. *)
Definition late_clipboard (content : text) : browser nat :=
  Browser (fun c n =>
    match c return reply (returns c) * nat with
    | find_element _ => (Reply (inl 1%nat) 0, n)
    | get_attribute _ _ => (Reply (inl None) 0, n)
    | get_text _ => (Reply (inl []) 0, n)
    | is_displayed _ => (Reply (inl true) 0, n)
    | clipboard_readText =>
        (Reply (inl (if (n =? 0)%nat then None else Some content)) 0, S n)
    | Driver _ => (Reply (inl tt) 0, n)
    | uc_open_with_reconnect _ _ => (Reply (inl tt) 0, n)
    | quit => (Reply (inl tt) 0, n)
    | click _ => (Reply (inl tt) 0, n)
    | clear _ => (Reply (inl tt) 0, n)
    | send_keys _ _ => (Reply (inl tt) 0, n)
    | script_click _ => (Reply (inl tt) 0, n)
    | locate_and_copy => (Reply (inl tt) 0, n)
    end).

(** ** getResult, call by call (lines 237-482)

    What [locate_and_copy] stands for above, one call at a time: the wait
    for the end of the generation, the scrolling, the search for the copy
    control and its click, followed by the reads of the clipboard.  The
    calls are those [getResult] makes; the answers given to them are kept,
    in order, beside the page. *)

Module Extractor.

(** [document.body] and [document.documentElement]. *)
Inductive node : Type :=
| document_body
| document_documentElement.

(** The scripts [getResult] runs for their effect:
    [window.scrollTo(0, Math.max(document.body.scrollHeight,
    document.documentElement.scrollHeight))],
    [document.body.scrollTop = document.body.scrollHeight],
    [document.documentElement.scrollTop =
    document.documentElement.scrollHeight],
    [window.scrollTo(0, Number.MAX_SAFE_INTEGER)], the scroll of the
    element a selector finds to its own height, the scroll of the last
    element of the document into view, [window.scrollBy(x, y)], and on an
    element: [scrollIntoView], [click()], and the dispatch of a click
    [MouseEvent]. *)
Inductive script : Type :=
| scrollTo_bottom
| body_scrollTop
| documentElement_scrollTop
| scrollTo_MAX_SAFE_INTEGER
| scroll_container (container : string)
| scroll_last_element
| scrollBy (x y : Z)
| scrollIntoView (el : handle)
| js_click (el : handle)
| dispatch_click (el : handle).

Inductive probe : Type :=
| find_elements (selector : string)
| is_displayed (el : handle)
| is_enabled (el : handle)
| scrollHeight (nd : node)
| execute_script (js : script)
| set_window_size (width height : Z)
| maximize_window
| click (el : handle)
| clipboard_readText.

Definition answers (p : probe) : Type :=
  match p with
  | find_elements _ => list handle
  | is_displayed _ => bool
  | is_enabled _ => bool
  | scrollHeight _ => Z
  | clipboard_readText => option text
  | _ => unit
  end.

Record inspector (W : Type) : Type := Inspector {
  respond : forall p : probe, W -> reply (answers p) * W
}.

(** A call that was made, with what it returned or the message of what it
    raised. *)
Inductive entry : Type :=
| Asked (p : probe) (r : answers p + string).

(** The page, and the calls made on it so far. *)
Record logged (W : Type) : Type := Logged {
  under : W;
  asked : list entry
}.

Section Steps.

Variable W : Type.
Variable X : inspector W.

Definition ask (p : probe) : M (logged W) (answers p) :=
  fun s =>
    let (r, w) := respond X p (under (page s)) in
    let s' := Sys (clock s + Z.of_nat (took r))
                (Logged w (asked (page s) ++ [Asked p (outcome r)]))
                (trace s) in
    match outcome r with
    | inl a => (Val a, s')
    | inr msg => (Exn (Exception msg), s')
    end.

(** *** The wait for the end of the generation (lines 237-256) *)

(** [any(btn.is_displayed() for btn in stop_buttons)] *)
Fixpoint any_displayed (stop_buttons : list handle) : M (logged W) bool :=
  match stop_buttons with
  | [] => ret false
  | btn :: rest =>
      d <- ask (is_displayed btn);;
      if d then ret true else any_displayed rest
  end.

(** Lines 245-246: whether a stop button is there and displayed. *)
Definition still_generating : M (logged W) bool :=
  stop_buttons <-
    ask (find_elements "button[data-testid='stop-generating-response-button']");;
  match stop_buttons with
  | [] => ret false
  | _ => any_displayed stop_buttons
  end.

(** The [while] loop; a round that does not leave it pauses 5s, so 90
    rounds bring the clock to the ceiling of 450s. *)
Fixpoint generation_loop (rounds : nat) (start_time : Z)
  : M (logged W) unit :=
  match rounds with
  | O => ret tt
  | S rounds' =>
      now <- time_time;;
      if now - start_time <? 450000 then
        r <- catch still_generating;;
        match r with
        | inl false => ret tt
        | inl true => sleep 5000;; generation_loop rounds' start_time
        | inr _ => sleep 5000;; generation_loop rounds' start_time
        end
      else ret tt
  end.

Definition await_generation : M (logged W) unit :=
  start_time <- time_time;;
  generation_loop 91 start_time.

(** *** Scrolling (lines 262-352) *)

(** Lines 270-285: one round of the loop up to its test, which is whether
    the larger of the two heights is after the scroll what it was
    before. *)
Definition height_stable : M (logged W) bool :=
  body_height <- ask (scrollHeight document_body);;
  doc_height <- ask (scrollHeight document_documentElement);;
  let max_height := Z.max body_height doc_height in
  ask (execute_script scrollTo_bottom);;
  sleep 3000;;
  new_body_height <- ask (scrollHeight document_body);;
  new_doc_height <- ask (scrollHeight document_documentElement);;
  let new_max_height := Z.max new_body_height new_doc_height in
  ret (new_max_height =? max_height).

Fixpoint scroll_loop (rounds : nat) (scroll_attempt stable_height_count : Z)
  : M (logged W) unit :=
  match rounds with
  | O => ret tt
  | S rounds' =>
      if scroll_attempt <? 10 then
        let scroll_attempt := scroll_attempt + 1 in
        stable <- height_stable;;
        if stable then
          let stable_height_count := stable_height_count + 1 in
          if 3 <=? stable_height_count then ret tt
          else scroll_loop rounds' scroll_attempt stable_height_count
        else scroll_loop rounds' scroll_attempt 0
      else ret tt
  end.

Definition scroll_to_bottom : M (logged W) unit := scroll_loop 10 0 0.

(** Lines 303-309: [for _ in range(3)]. *)
Fixpoint standard_scrolls (times : nat) : M (logged W) unit :=
  match times with
  | O => ret tt
  | S times' =>
      ask (execute_script scrollTo_bottom);;
      sleep 1000;;
      ask (execute_script body_scrollTop);;
      sleep 1000;;
      ask (execute_script documentElement_scrollTop);;
      sleep 1000;;
      standard_scrolls times'
  end.

Definition scroll_containers : list string :=
  ["main"; "[role='main']"; ".conversation"; ".answer"; ".result";
   "[data-testid='conversation']"]%string.

(** Lines 325-339. *)
Fixpoint scroll_each (containers : list string) : M (logged W) unit :=
  match containers with
  | [] => ret tt
  | container :: rest =>
      try_except
        (ask (execute_script (scroll_container container));;
         sleep 500)
        (fun _ => ret tt);;
      scroll_each rest
  end.

Definition aggressive_scroll : M (logged W) unit :=
  standard_scrolls 3;;
  ask (execute_script scrollTo_MAX_SAFE_INTEGER);;
  sleep 2000;;
  scroll_each scroll_containers;;
  try_except
    (ask (execute_script scroll_last_element);;
     sleep 2000)
    (fun _ => ret tt).

(** *** The copy control (lines 364-457) *)

Definition copy_selectors : list string :=
  ["button[aria-label='Copy']"; "button[title='Copy']";
   "button[data-testid='copy-button']"; "button:has-text('Copy')";
   ".copy-button"; "[role='button'][aria-label='Copy']"]%string.

(** Line 394:
    [[btn for btn in copy_buttons if btn.is_displayed() and btn.is_enabled()]] *)
Fixpoint visible_buttons (copy_buttons : list handle)
  : M (logged W) (list handle) :=
  match copy_buttons with
  | [] => ret []
  | btn :: rest =>
      d <- ask (is_displayed btn);;
      keep <- (if d then ask (is_enabled btn) else ret false);;
      visible <- visible_buttons rest;;
      ret (if keep then btn :: visible else visible)
  end.

(** [l[-1]] of a list that is not empty. *)
Definition last_of (l : list handle) : option handle :=
  match l with
  | [] => None
  | b :: rest => Some (last rest b)
  end.

(** Lines 389-401: the selectors in turn; the value is [copy_button] after
    the [for] loop. *)
Fixpoint try_selectors (selectors : list string)
  : M (logged W) (option handle) :=
  match selectors with
  | [] => ret None
  | selector :: rest =>
      r <- catch
             (copy_buttons <- ask (find_elements selector);;
              match copy_buttons with
              | [] => ret None
              | _ =>
                  visible <- visible_buttons copy_buttons;;
                  ret (last_of visible)
              end);;
      match r with
      | inl (Some copy_button) => ret (Some copy_button)
      | _ => try_selectors rest
      end
  end.

(** Lines 371-410: [while copy_attempt < max_copy_attempts and not
    copy_button]. *)
Fixpoint find_copy_button (rounds : nat) (copy_attempt : Z)
  : M (logged W) (option handle) :=
  match rounds with
  | O => ret None
  | S rounds' =>
      if copy_attempt <? 5 then
        let copy_attempt := copy_attempt + 1 in
        (if 1 <? copy_attempt then sleep 3000 else ret tt);;
        copy_button <- try_selectors copy_selectors;;
        match copy_button with
        | Some b => ret (Some b)
        | None =>
            (if copy_attempt <? 5 then
               ask (execute_script (scrollBy 0 200));;
               sleep 1000
             else ret tt);;
            find_copy_button rounds' copy_attempt
        end
      else ret None
  end.

(** Lines 416-457. *)
Definition click_copy_button (copy_button : handle) : M (logged W) unit :=
  ask (execute_script (scrollIntoView copy_button));;
  sleep 2000;;
  click_success <-
    try_except
      (ask (click copy_button);;
       ask (click copy_button);;
       ret true)
      (fun _ => ret false);;
  click_success <-
    (if negb click_success then
       try_except
         (ask (execute_script (js_click copy_button));;
          ask (execute_script (js_click copy_button));;
          ret true)
         (fun _ => ret false)
     else ret click_success);;
  click_success <-
    (if negb click_success then
       try_except
         (ask (execute_script (dispatch_click copy_button));;
          ret true)
         (fun _ => ret false)
     else ret click_success);;
  if negb click_success then
    raise (Exception "All copy button click methods failed")
  else ret tt.

(** *** The clipboard (lines 463-473), as above *)

Fixpoint read_clipboard (attempts : list Z) (clipboard_content : option text)
  : M (logged W) (option text) :=
  match attempts with
  | [] => ret clipboard_content
  | clipboard_attempt :: rest =>
      r <- catch (ask clipboard_readText);;
      match r with
      | inl (Some (c :: t)) => ret (Some (c :: t))
      | inl clipboard_content =>
          sleep 1000;;
          read_clipboard rest clipboard_content
      | inr _ =>
          (if clipboard_attempt <? 2 then sleep 1000 else ret tt);;
          read_clipboard rest clipboard_content
      end
  end.

(** *** getResult *)

Definition getResult : M (logged W) text :=
  await_generation;;
  scroll_to_bottom;;
  aggressive_scroll;;
  try_except
    (ask (set_window_size 1920 1080);;
     ask maximize_window;;
     sleep 1000;;
     copy_button <- find_copy_button 5 0;;
     match copy_button with
     | Some copy_button =>
         click_copy_button copy_button;;
         sleep 3000;;
         clipboard_content <- read_clipboard [0; 1; 2] None;;
         match clipboard_content with
         | Some (c :: t) => ret (cleaned_citation_string (c :: t))
         | _ =>
             raise (Exception
               "Failed to read clipboard content after multiple attempts")
         end
     | None => raise (Exception "No copy button found after 5 attempts")
     end)
    (fun e => raise e).

End Steps.

(** *** Notions and pages for the properties *)

(** The calls whose exception [getResult] lets through: the reads of the
    heights, the scrolls of the window, the sizing of the window and the
    scroll of the copy control into view. *)
Definition fatal (p : probe) : bool :=
  match p with
  | scrollHeight _ => true
  | execute_script scrollTo_bottom => true
  | execute_script body_scrollTop => true
  | execute_script documentElement_scrollTop => true
  | execute_script scrollTo_MAX_SAFE_INTEGER => true
  | execute_script (scrollBy _ _) => true
  | execute_script (scrollIntoView _) => true
  | set_window_size _ _ => true
  | maximize_window => true
  | _ => false
  end.

(** The messages of the exceptions [getResult] raises itself. *)
Definition own_messages : list string :=
  ["No copy button found after 5 attempts";
   "All copy button click methods failed";
   "Failed to read clipboard content after multiple attempts"]%string.

(** [m], when it raises, raises one of [getResult]'s own exceptions or the
    exception of a call of a fatal kind, and does nothing after it. *)
Definition lets_through {W A} (X : inspector W) (m : M (logged W) A) : Prop :=
  forall s e s',
    m s = (Exn e, s') ->
    (exists msg, e = Exception msg /\ In msg own_messages) \/
    (exists p s0, fatal p = true /\ ask X p s0 = (Exn e, s')).

(** [m] leaves the trace as it is: it does not pause. *)
Definition silent {W A} (m : M (logged W) A) : Prop :=
  forall s, trace (snd (m s)) = trace s.

(** [m] never moves the clock back, and moves it forward by [low] at least
    when it returns. *)
Definition takes {W A} (low : Z) (m : M (logged W) A) : Prop :=
  forall s,
    clock s <= clock (snd (m s)) /\
    (forall a, fst (m s) = Val a -> clock s + low <= clock (snd (m s))).

(** [log] holds the calls made between [s] and [s'], oldest first. *)
Definition since {W} (s s' : sys (logged W)) (log : list entry) : Prop :=
  asked (page s') = asked (page s) ++ log.

Definition appends {W A} (m : M (logged W) A) : Prop :=
  forall s, exists log, since s (snd (m s)) log.

(** Among the calls of [log], [b] was found by one of the selectors for the
    copy control, and was seen displayed and enabled. *)
Definition chosen (b : handle) (log : list entry) : Prop :=
  (exists selector l,
     In selector copy_selectors /\
     In (Asked (find_elements selector) (inl l)) log /\
     In b l) /\
  In (Asked (is_displayed b) (inl true)) log /\
  In (Asked (is_enabled b) (inl true)) log.

(** Among the calls of [log], a click on [b] went through. *)
Definition clicked (b : handle) (log : list entry) : Prop :=
  In (Asked (click b) (inl tt)) log \/
  In (Asked (execute_script (js_click b)) (inl tt)) log \/
  In (Asked (execute_script (dispatch_click b)) (inl tt)) log.

(** The first of the selectors that finds buttons displayed and enabled,
    and the last of these buttons. *)
Definition first_match (found : string -> list handle)
  (shown enabled : handle -> bool) (selectors : list string)
  : option handle :=
  match
    find (fun l => negb (Nat.eqb (length l) 0))
      (map (fun selector =>
              filter (fun b => shown b && enabled b) (found selector))
           selectors)
  with
  | Some l => last_of l
  | None => None
  end.

(** A page that does not change and answers at once. *)
Definition still (found : string -> list handle)
  (shown enabled : handle -> bool) (height : Z) (clipboard : option text)
  : inspector unit :=
  Inspector (fun p w =>
    (Reply
       match p return answers p + string with
       | find_elements selector => inl (found selector)
       | is_displayed el => inl (shown el)
       | is_enabled el => inl (enabled el)
       | scrollHeight _ => inl height
       | clipboard_readText => inl clipboard
       | execute_script _ => inl tt
       | set_window_size _ _ => inl tt
       | maximize_window => inl tt
       | click _ => inl tt
       end 0, w)).

(** A page that grows by 100 pixels each time the window is scrolled to
    its bottom, its height being the state. *)
Definition growing : inspector Z :=
  Inspector (fun p h =>
    match p return reply (answers p) * Z with
    | find_elements _ => (Reply (inl []) 0, h)
    | is_displayed _ => (Reply (inl false) 0, h)
    | is_enabled _ => (Reply (inl false) 0, h)
    | scrollHeight _ => (Reply (inl h) 0, h)
    | clipboard_readText => (Reply (inl None) 0, h)
    | execute_script js =>
        (Reply (inl tt) 0,
         match js with
         | scrollTo_bottom => h + 100
         | _ => h
         end)
    | set_window_size _ _ => (Reply (inl tt) 0, h)
    | maximize_window => (Reply (inl tt) 0, h)
    | click _ => (Reply (inl tt) 0, h)
    end).

(** The copy controls of the pages below: the selector by title finds the
    buttons 4, 5 and 6, of which 6 is hidden; the selector by label finds
    button 7, which is disabled. *)
Definition copy_found (selector : string) : list handle :=
  if String.eqb selector "button[aria-label='Copy']" then [7%nat]
  else if String.eqb selector "button[title='Copy']" then [4%nat; 5%nat; 6%nat]
  else [].

Definition answered : inspector unit :=
  still copy_found (fun b => negb (Nat.eqb b 6)) (fun b => negb (Nat.eqb b 7))
    900 (Some (str "Answer text [1][2] more")).

(** The system at the start of the extraction: clock at 0, nothing traced,
    nothing asked. *)
Definition fresh {W} (w : W) : sys (logged W) := Sys 0 (Logged w []) [].

End Extractor.

(** ** Text lemmas *)

Lemma text_eqb_eq a b : text_eqb a b = true <-> a = b.
Proof.
  revert b; induction a as [|x a IH]; intros [|y b]; simpl;
    try (split; [discriminate | congruence]); [tauto|].
  rewrite andb_true_iff, N.eqb_eq, IH.
  split; [intros [-> ->]; reflexivity | intros H; inversion H; auto].
Qed.

Lemma text_eqb_refl a : text_eqb a a = true.
Proof. apply text_eqb_eq; reflexivity. Qed.

Lemma text_eqb_neq a b : text_eqb a b = false <-> a <> b.
Proof.
  rewrite <- text_eqb_eq. destruct (text_eqb a b); split; congruence.
Qed.

Lemma contains_In c t : contains c t = true <-> In c t.
Proof.
  unfold contains. rewrite existsb_exists. split.
  - intros (x & Hx & E). apply N.eqb_eq in E. subst; assumption.
  - intros H. exists c. split; [assumption | apply N.eqb_refl].
Qed.

Lemma starts_with_app p s :
  starts_with p s = true <-> exists r, s = p ++ r.
Proof.
  revert s; induction p as [|a p IH]; intros s; simpl.
  - split; [exists s; reflexivity | reflexivity].
  - destruct s as [|b s].
    + split; [discriminate | intros [r H]; discriminate].
    + rewrite andb_true_iff, N.eqb_eq, IH. split.
      * intros [-> [r ->]]. exists r; reflexivity.
      * intros [r H]. inversion H; subst. split; [reflexivity | eauto].
Qed.

Lemma split_from_nonempty sep k cur s : split_from sep k cur s <> [].
Proof.
  revert k cur; induction s as [|c s IH]; intros k cur; simpl.
  - discriminate.
  - destruct k; [|apply IH].
    destruct (starts_with sep (c :: s)); [discriminate | apply IH].
Qed.

Lemma join_cons sep x rest :
  rest <> [] -> join sep (x :: rest) = x ++ sep ++ join sep rest.
Proof. destruct rest; [congruence | reflexivity]. Qed.

Lemma join_split_from sep k cur s :
  sep <> [] -> (k <= length s)%nat ->
  join sep (split_from sep k cur s) = cur ++ skipn k s.
Proof.
  intros Hsep. revert k cur.
  induction s as [|c s IH]; intros k cur Hk; simpl in *.
  - assert (k = 0%nat) by lia. subst. simpl. now rewrite app_nil_r.
  - destruct k as [|k]; [|apply IH; lia].
    destruct (starts_with sep (c :: s)) eqn:E.
    + apply starts_with_app in E. destruct E as [r E].
      destruct sep as [|a p]; [congruence|].
      simpl in E. inversion E; subst c s.
      rewrite join_cons by apply split_from_nonempty.
      rewrite IH.
      * simpl. rewrite Nat.sub_0_r, skipn_app, skipn_all, Nat.sub_diag.
        simpl. reflexivity.
      * simpl. rewrite Nat.sub_0_r, length_app. lia.
    + rewrite IH by lia. simpl. now rewrite <- app_assoc.
Qed.

(** The split/join round trip. *)
Lemma join_split sep s : sep <> [] -> join sep (split sep s) = s.
Proof.
  intros H. unfold split. rewrite join_split_from; [reflexivity|assumption|lia].
Qed.

Lemma hd_split_from_absent sep cur s :
  ~ occurs sep s -> hd [] (split_from sep 0 cur s) = cur ++ s.
Proof.
  revert cur; induction s as [|c s IH]; intros cur H; simpl.
  - now rewrite app_nil_r.
  - destruct (starts_with sep (c :: s)) eqn:E.
    + exfalso. apply H. apply starts_with_app in E. destruct E as [r E].
      exists [], r. exact E.
    + rewrite IH.
      * now rewrite <- app_assoc.
      * intros (a & b & Hab). apply H. exists (c :: a), b.
        simpl. now rewrite Hab.
Qed.

Lemma hd_split_from_first sep cur p r :
  sep <> [] ->
  (forall p' r', p ++ sep ++ r = p' ++ sep ++ r' -> (length p <= length p')%nat) ->
  hd [] (split_from sep 0 cur (p ++ sep ++ r)) = cur ++ p.
Proof.
  intros Hsep. revert cur; induction p as [|c p IH]; intros cur Hmin.
  - destruct sep as [|a q]; [congruence|]. simpl.
    rewrite N.eqb_refl. simpl.
    replace (starts_with q (q ++ r)) with true.
    + simpl. now rewrite app_nil_r.
    + symmetry. apply starts_with_app. eauto.
  - simpl. destruct (starts_with sep (c :: p ++ sep ++ r)) eqn:E.
    + apply starts_with_app in E. destruct E as [r' E].
      specialize (Hmin [] r' E). simpl in Hmin. lia.
    + rewrite IH.
      * now rewrite <- app_assoc.
      * intros p' r' H. specialize (Hmin (c :: p') r').
        simpl in Hmin. rewrite H in Hmin.
        specialize (Hmin eq_refl). lia.
Qed.

(** No segment of a split on a one-character separator holds that
    character. *)
Lemma split_from_char_free c cur s :
  ~ In c cur -> Forall (fun part => ~ In c part) (split_from [c] 0 cur s).
Proof.
  revert cur; induction s as [|a s IH]; intros cur H; simpl.
  - constructor; [assumption | constructor].
  - destruct (N.eqb c a) eqn:E; simpl.
    + constructor; [assumption | apply IH; intros []].
    + apply IH. intros Hin. apply in_app_or in Hin.
      destruct Hin as [Hin | [Hin | []]]; [auto|].
      subst. rewrite N.eqb_refl in E. discriminate.
Qed.


(** ** The thresholds *)

(** On doubles, the three comparisons of the code are those of the
    embedding: for all pairs of lengths up to 300, and at the lengths on
    either side of the threshold for all prompts up to 100000 characters. *)
Lemma thresholds_as_integers :
  Py.agree Py.ninety_five 19 20 (Z.to_nat 300) = true /\
  Py.agree Py.eighty 4 5 (Z.to_nat 300) = true /\
  Py.agree Py.half 1 2 (Z.to_nat 300) = true /\
  Py.agree_at_threshold Py.ninety_five 19 20 (Z.to_nat 100000) = true /\
  Py.agree_at_threshold Py.eighty 4 5 (Z.to_nat 100000) = true /\
  Py.agree_at_threshold Py.half 1 2 (Z.to_nat 100000) = true.
Proof. repeat apply conj; vm_compute; reflexivity. Qed.

(** ** Properties of the program *)

Section Properties.

Variable W : Type.
Variable B : browser W.
Variable str_HTTPException : Z -> string -> string.

Local Abbreviation driver := (perform B).

(** *** Calls, clock and trace *)

Lemma perform_cases c (s : sys W) :
  (exists a s', driver c s = (Val a, s') /\
     clock s <= clock s' /\ trace s' = trace s ++ [Called c true]) \/
  (exists msg s', driver c s = (Exn (Exception msg), s') /\
     clock s <= clock s' /\ trace s' = trace s ++ [Called c false]).
Proof.
  unfold perform. destruct (answer B c (page s)) as [[o d] w]. simpl.
  destruct o as [a | msg]; [left | right]; eexists; eexists;
    (split; [reflexivity | simpl; split; [lia | reflexivity]]).
Qed.

(** Take the next call of the goal apart into its two outcomes. *)
Ltac call_cases :=
  match goal with
  | |- context [perform B ?c ?s] =>
      let a := fresh "a" in
      let msg := fresh "msg" in
      let s' := fresh "s" in
      let E := fresh "E" in
      let Hc := fresh "Hclock" in
      let Ht := fresh "Htrace" in
      destruct (perform_cases c s)
        as [(a & s' & E & Hc & Ht) | (msg & s' & E & Hc & Ht)];
      rewrite E; simpl
  end.

Lemma read_text_clock el (s : sys W) :
  clock s <= clock (snd (read_text B el s)).
Proof.
  unfold read_text, bind. call_cases; [|lia].
  destruct a as [[|ch t]|]; simpl; try lia; call_cases; lia.
Qed.

Lemma sample_clock (s : sys W) : clock s <= clock (snd (sample B s)).
Proof.
  unfold sample, safe_find_input, bind. call_cases; [|lia].
  pose proof (read_text_clock a s0) as H.
  destruct (read_text B a s0) as [[t|x] s1]; simpl in *; lia.
Qed.

(** *** The detector, round by round *)

(** A round that reads a text does what [judge] says and, unless it
    returns, pauses 200ms. *)
Lemma poll_sampled e st (s s1 : sys W) current :
  sample B s = (Val current, s1) ->
  poll B e st s =
    match judge e current (clock s1) st with
    | inr v => (Val (inr v), s1)
    | inl st' => (Val (inl st'), slept 200 s1)
    end.
Proof.
  intros H. unfold poll, try_except, bind. rewrite H.
  unfold count_stable, check_stall, judge, bind, time_time, ret, sleep, slept.
  repeat (match goal with
          | |- context [if ?b then _ else _] => destruct b eqn:?
          end; simpl); try reflexivity; congruence.
Qed.

(** A round whose read raises pauses and changes no variable. *)
Lemma poll_raised e st (s s1 : sys W) x :
  sample B s = (Exn x, s1) ->
  poll B e st s = (Val (inl st), slept 200 s1).
Proof.
  intros H. unfold poll, try_except, bind. rewrite H. reflexivity.
Qed.

Lemma poll_cases e st (s : sys W) :
  exists s1, clock s <= clock s1 /\
    (poll B e st s = (Val (inl st), slept 200 s1) /\
       (exists x, sample B s = (Exn x, s1))
     \/ exists current, sample B s = (Val current, s1) /\
          poll B e st s =
            match judge e current (clock s1) st with
            | inr v => (Val (inr v), s1)
            | inl st' => (Val (inl st'), slept 200 s1)
            end).
Proof.
  pose proof (sample_clock s) as Hc.
  destruct (sample B s) as [[current|x] s1] eqn:E; exists s1; simpl in Hc;
    (split; [assumption|]).
  - right. exists current. split; [reflexivity | now apply poll_sampled].
  - left. split; [now apply poll_raised with (x := x) | eauto].
Qed.

(** A round never raises, and one that does not return takes 200ms or
    more. *)
Lemma poll_continues e st (s s' : sys W) st' :
  poll B e st s = (Val (inl st'), s') -> clock s + 200 <= clock s'.
Proof.
  destruct (poll_cases e st s) as (s1 & Hc & [[-> _] | (cur & _ & ->)]).
  - intros H. inversion H. simpl. lia.
  - destruct (judge e cur (clock s1) st); intros H; inversion H.
    simpl. lia.
Qed.

Lemma poll_total e st (s : sys W) :
  exists r s', poll B e st s = (Val r, s').
Proof.
  destruct (poll_cases e st s) as (s1 & _ & [[-> _] | (cur & _ & ->)]).
  - eauto.
  - destruct (judge e cur (clock s1) st); eauto.
Qed.

(** One turn of the [while] loop. *)
Lemma wait_loop_S n e max_wait start st (s : sys W) :
  wait_loop B (S n) e max_wait start st s =
  if clock s - start <? max_wait then
    match poll B e st s with
    | (Val (inl st'), s') => wait_loop B n e max_wait start st' s'
    | (Val (inr _), s') => (Val true, s')
    | (Exn x, s') => (Exn x, s')
    end
  else (Val false, s).
Proof.
  simpl. unfold bind, time_time.
  destruct (clock s - start <? max_wait); [|reflexivity].
  destruct (poll B e st s) as [[[st'|v]|x] s']; reflexivity.
Qed.

(** The rounds given to the loop are never what ends it: with the clock
    [200 * n] or less short of the ceiling, [S n] rounds or any more give
    the same run. *)
Lemma wait_loop_rounds n extra e max_wait start st (s : sys W) :
  max_wait - (clock s - start) <= 200 * Z.of_nat n ->
  wait_loop B (S n + extra) e max_wait start st s =
  wait_loop B (S n) e max_wait start st s.
Proof.
  revert extra st s. induction n as [|n IH]; intros extra st s H.
  - change (1 + extra)%nat with (S extra). rewrite !wait_loop_S.
    destruct (clock s - start <? max_wait) eqn:E; [|reflexivity].
    apply Z.ltb_lt in E. lia.
  - change (S (S n) + extra)%nat with (S (S n + extra)).
    rewrite (wait_loop_S (S n + extra)), (wait_loop_S (S n)).
    destruct (clock s - start <? max_wait) eqn:E; [|reflexivity].
    destruct (poll B e st s) as [[[st'|v]|x] s'] eqn:P; try reflexivity.
    apply IH. apply poll_continues in P. lia.
Qed.

(** From its start the loop has rounds enough. *)
Lemma polls_enough max_wait extra e start st (s : sys W) :
  start <= clock s ->
  wait_loop B (polls max_wait + extra) e max_wait start st s =
  wait_loop B (polls max_wait) e max_wait start st s.
Proof.
  intros H. unfold polls. apply wait_loop_rounds.
  pose proof (Z.div_mod (max_wait + 199) 200 ltac:(lia)) as D.
  pose proof (Z.mod_pos_bound (max_wait + 199) 200 ltac:(lia)) as R.
  destruct (Z.le_gt_cases 0 ((max_wait + 199) / 200)).
  - rewrite Z2Nat.id by assumption. lia.
  - lia.
Qed.

(** *** The stability rule and the history of samples *)

Ltac boolify :=
  repeat match goal with
  | H : (_ <=? _) = true |- _ => apply Z.leb_le in H
  | H : (_ <=? _) = false |- _ => apply Z.leb_gt in H
  | H : (_ <? _) = true |- _ => apply Z.ltb_lt in H
  | H : (_ <? _) = false |- _ => apply Z.ltb_ge in H
  | H : (_ =? _) = true |- _ => apply Z.eqb_eq in H
  | H : (_ =? _) = false |- _ => apply Z.eqb_neq in H
  | H : text_eqb _ _ = true |- _ => apply text_eqb_eq in H
  | H : text_eqb _ _ = false |- _ => apply text_eqb_neq in H
  end.

(** Lengths are natural numbers. *)
Ltac show_len :=
  repeat match goal with
  | H : context [len ?t] |- _ =>
      change (len t) with (Z.of_nat (length t)) in H
  | |- context [len ?t] => change (len t) with (Z.of_nat (length t))
  end.

(** Split a hypothesis about [judge] along the tests of lines 36-60. *)
Ltac judge_cases H :=
  unfold judge in H;
  repeat (match type of H with
          | context [if ?b then _ else _] => destruct b eqn:?
          end;
          cbn [last_text stable_count last_progress_time] in H);
  boolify; show_len.

Ltac judge_goal :=
  unfold judge;
  repeat (match goal with
          | |- context [if ?b then _ else _] => destruct b eqn:?
          end;
          cbn [last_text stable_count last_progress_time]);
  boolify; show_len.

Lemma unchanged_same current h :
  current = hd [] h -> unchanged current h = S (streak h).
Proof.
  intros ->. destruct h as [|p rest]; simpl; [reflexivity|].
  now rewrite text_eqb_refl.
Qed.

Lemma unchanged_differs current h :
  current <> hd [] h -> unchanged current h = 0%nat.
Proof.
  intros H. destruct h as [|p rest]; simpl in *;
    apply text_eqb_neq in H; now rewrite H.
Qed.

(** While the loop runs, [last_text] is the newest sample and, for a text
    of 95% or more, [stable_count] is the number of samples in a row that
    left it unchanged, under 6. *)
Lemma polled_invariant e t0 (s0 : sys W) h st s :
  polled B e (Progress [] 0 t0) s0 h st s ->
  last_text st = hd [] h /\
  (19 * len e <= 20 * len (last_text st) ->
   stable_count st = Z.of_nat (streak h) /\ stable_count st < 6).
Proof.
  intros H. remember (Progress [] 0 t0) as st0 eqn:E0.
  induction H as [st s | st0 s0 h st s cur s1 st' s' H IH Hs Hp
                 | st0 s0 h st s x s1 st' s' H IH Hs Hp].
  - subst. simpl. split; [reflexivity | intros _; lia].
  - specialize (IH E0). destruct IH as [Hlast Hcount].
    rewrite (poll_sampled e st s Hs) in Hp.
    destruct (judge e cur (clock s1) st) as [st2|v] eqn:J; [|discriminate].
    inversion Hp; subst st2 s'. clear Hp.
    judge_cases J; inversion J; subst st';
      cbn [last_text stable_count last_progress_time hd] in *;
      try (rewrite <- Heqb in *);
      (split; [congruence|]); intros H95;
      change (streak (cur :: h)) with (unchanged cur h);
      try (rewrite unchanged_same by congruence);
      try (rewrite unchanged_differs by congruence);
      try (specialize (Hcount ltac:(congruence || lia))); try lia.
  - specialize (IH E0).
    rewrite (poll_raised e st s Hs) in Hp. inversion Hp; subst. exact IH.
Qed.

(** Every round of the loop of [wait_for_typing_completion] starts in a
    state that [polled] reaches, and a [True] it returns is the verdict of
    such a round. *)
Lemma wait_loop_polled n e max_wait start st0 (s0 : sys W) h st s s_end :
  polled B e st0 s0 h st s ->
  wait_loop B n e max_wait start st s = (Val true, s_end) ->
  exists h' st' s' v,
    polled B e st0 s0 h' st' s' /\
    poll B e st' s' = (Val (inr v), s_end).
Proof.
  revert h st s. induction n as [|n IH]; intros h st s Hp Hrun.
  - discriminate.
  - rewrite wait_loop_S in Hrun.
    destruct (clock s - start <? max_wait); [|discriminate].
    destruct (poll B e st s) as [[[st'|v]|x] s'] eqn:P; try discriminate.
    + destruct (sample B s) as [[cur|x] s1] eqn:Hs.
      * eapply IH; [|exact Hrun]. eapply polled_sample; eassumption.
      * eapply IH; [|exact Hrun]. eapply polled_raise; eassumption.
    + inversion Hrun; subst. exists h, st, s, v. split; assumption.
Qed.

(** The first rounds of the loop, as [repeat_poll] runs them, are rounds
    of [polled]. *)
Lemma repeat_poll_polled n e st0 (s0 : sys W) :
  forall h st s st' s',
    polled B e st0 s0 h st s ->
    repeat_poll B n e st s = (Val (inl st'), s') ->
    polled B e st0 s0 (seen B n e st s h) st' s'.
Proof.
  induction n as [|n IH]; intros h st s st' s' Hp Hrun.
  - inversion Hrun; subst. exact Hp.
  - cbn [repeat_poll seen] in *. unfold bind in Hrun.
    destruct (poll B e st s) as [[[st1|v]|x] s1] eqn:P; try discriminate.
    destruct (sample B s) as [[cur|x] s2] eqn:Hs.
    + apply IH; [|exact Hrun]. eapply polled_sample; eassumption.
    + apply IH; [|exact Hrun]. eapply polled_raise; eassumption.
Qed.

(** C1, as amended: the detector returns through its stability rule at a
    sample exactly when that sample is the sixth in a row to leave the
    stripped text unchanged and the text is at least 95% of the prompt
    long.  When the counter reaches 6 on a text shorter than that, the
    counter goes back to 0 if the text is not empty and is left running if
    it is empty; the round then ends in the stall check, which may accept
    the text, and otherwise polling continues. *)
Theorem stability_rule e t0 (s0 : sys W) h st s current s1 :
  polled B e (Progress [] 0 t0) s0 h st s ->
  sample B s = (Val current, s1) ->
  (fst (poll B e st s) = Val (inr Stable) <->
   (6 <= unchanged current h)%nat /\ 19 * len e <= 20 * len current)
  /\
  (current = last_text st -> 6 <= stable_count st + 1 ->
   20 * len current < 19 * len e ->
   match fst (poll B e st s) with
   | Val (inl st') =>
       last_text st' = current /\
       stable_count st' =
         (if 0 <? len current then 0 else stable_count st + 1)
   | Val (inr Stalled) =>
       60000 < clock s1 - last_progress_time st /\
       4 * len e <= 5 * len current
   | Val (inr Stable) => False
   | Exn _ => False
   end).
Proof.
  intros Hpolled Hs.
  destruct (polled_invariant Hpolled) as [Hlast Hcount].
  rewrite (poll_sampled e st s Hs).
  destruct (judge e current (clock s1) st) as [st'|v] eqn:J; cbn [fst].
  - split.
    + split; [discriminate|]. intros [Hrun H95]. exfalso.
      assert (Hsame : current = hd [] h).
      { destruct (text_eqb current (hd [] h)) eqn:E;
          [now apply text_eqb_eq in E|].
        apply text_eqb_neq in E.
        rewrite (unchanged_differs _ E) in Hrun. lia. }
      rewrite (unchanged_same _ Hsame) in Hrun.
      rewrite <- Hlast in Hsame. rewrite <- Hsame in Hcount.
      specialize (Hcount H95).
      judge_cases J; try discriminate; try congruence; lia.
    + intros Heq H6 Hshort.
      judge_cases J; inversion J; subst st';
        cbn [last_text stable_count last_progress_time];
        try congruence; try lia;
        (split; [congruence|]);
        try match goal with
            | |- context [0 <? ?x] => destruct (0 <? x) eqn:?
            end; boolify; lia.
  - split.
    + split.
      * intros Hv. injection Hv as Hv. subst v.
        assert (Heq : current = last_text st /\ 6 <= stable_count st + 1
                      /\ 19 * len e <= 20 * len current).
        { judge_cases J; try discriminate; auto. }
        destruct Heq as (Heq & H6 & H95).
        split; [|assumption].
        rewrite unchanged_same by congruence.
        rewrite <- Heq in Hcount. specialize (Hcount H95). lia.
      * intros [Hrun H95].
        assert (Hsame : current = hd [] h).
        { destruct (text_eqb current (hd [] h)) eqn:E;
            [now apply text_eqb_eq in E|].
          apply text_eqb_neq in E.
          rewrite (unchanged_differs _ E) in Hrun. lia. }
        rewrite (unchanged_same _ Hsame) in Hrun.
        rewrite <- Hlast in Hsame. rewrite <- Hsame in Hcount.
        specialize (Hcount H95).
        judge_cases J; try discriminate; try congruence; try lia.
    + intros Heq H6 Hshort.
      judge_cases J; inversion J; subst v; try congruence; try lia.
Qed.

(** *** The stall rule *)

(** When the loop returns [False], the ceiling has been reached. *)
Lemma wait_loop_false_ceiling n e max_wait start st (s s' : sys W) :
  max_wait - (clock s - start) <= 200 * Z.of_nat n ->
  wait_loop B (S n) e max_wait start st s = (Val false, s') ->
  max_wait <= clock s' - start.
Proof.
  revert st s. induction n as [|n IH]; intros st s H Hrun;
    rewrite wait_loop_S in Hrun;
    destruct (clock s - start <? max_wait) eqn:E; boolify;
    try (inversion Hrun; subst; lia); try lia.
  destruct (poll B e st s) as [[[st'|v]|x] s1] eqn:P; try discriminate.
  apply (IH st' s1); [|assumption]. apply poll_continues in P. lia.
Qed.

(** The loop never raises. *)
Lemma wait_loop_total n e max_wait start st (s : sys W) :
  exists b s', wait_loop B n e max_wait start st s = (Val b, s').
Proof.
  revert st s. induction n as [|n IH]; intros st s.
  - simpl. unfold ret. eauto.
  - rewrite wait_loop_S. destruct (clock s - start <? max_wait); [|eauto].
    destruct (poll_total e st s) as (r & s' & ->).
    destruct r as [st'|v]; [apply IH | eauto].
Qed.

(** A stream that stays under 80% of the prompt is never accepted. *)
Lemma under_80_never_accepted e :
  (forall (s s1 : sys W) current,
     sample B s = (Val current, s1) -> 5 * len current < 4 * len e) ->
  forall n max_wait start st (s : sys W),
    fst (wait_loop B n e max_wait start st s) = Val false.
Proof.
  intros Hlow n max_wait start. induction n as [|n IH]; intros st s.
  - reflexivity.
  - rewrite wait_loop_S. destruct (clock s - start <? max_wait); [|reflexivity].
    destruct (poll_cases e st s) as (s1 & _ & [[-> _] | (cur & Hs & ->)]).
    + apply IH.
    + specialize (Hlow _ _ _ Hs).
      destruct (judge e cur (clock s1) st) as [st'|v] eqn:J; [apply IH|].
      exfalso. judge_cases J; try discriminate; lia.
Qed.

(** A frozen field of at least 80% and under 95% is accepted by the stall
    rule at the first sample more than 60s after the last progress. *)
Lemma frozen_stalls e x k :
  frozen_at B x -> x <> [] ->
  4 * len e <= 5 * len x -> 20 * len x < 19 * len e ->
  forall n max_wait start st (s : sys W),
    last_text st = x ->
    clock s - last_progress_time st + 200 * Z.of_nat k = 60200 ->
    (k < n)%nat ->
    clock s + 200 * Z.of_nat k - start < max_wait ->
    fst (wait_loop B n e max_wait start st s) = Val true /\
    clock (snd (wait_loop B n e max_wait start st s))
      = clock s + 200 * Z.of_nat k.
Proof.
  intros Hfrozen Hne H80 H95.
  induction k as [|k IH]; intros n max_wait start st s Hlast Hlp Hn Hceil;
    (destruct n as [|n]; [lia|]); rewrite wait_loop_S;
    (replace (clock s - start <? max_wait) with true
       by (symmetry; apply Z.ltb_lt; lia));
    destruct (Hfrozen s) as (s1 & Hs & Hc);
    rewrite (poll_sampled e st s Hs);
    destruct (judge e x (clock s1) st) as [st'|v] eqn:J.
  - exfalso. judge_cases J; try discriminate; try congruence; lia.
  - cbn [fst snd]. split; [reflexivity | lia].
  - assert (Hst : last_text st' = x /\
                  last_progress_time st' = last_progress_time st).
    { judge_cases J; inversion J; subst st';
        cbn [last_text stable_count last_progress_time];
        try congruence; try (split; [congruence | lia]); lia. }
    destruct Hst as [Hl' Hlp'].
    destruct (IH n max_wait start st' (slept 200 s1)) as [Ht Hclock];
      cbn [slept clock]; try assumption; try lia.
    split; [assumption|]. rewrite Hclock. cbn [slept clock]. lia.
  - exfalso. judge_cases J; try discriminate; try congruence; lia.
Qed.

(** A frozen field of at least 95% is accepted by the stability rule at the
    sample that brings the counter to 6. *)
Lemma frozen_counts e x k :
  frozen_at B x -> x <> [] -> 19 * len e <= 20 * len x ->
  forall n max_wait start st (s : sys W),
    last_text st = x ->
    stable_count st + Z.of_nat k = 5 ->
    clock s + 200 * Z.of_nat k - last_progress_time st <= 60000 ->
    last_progress_time st <= clock s ->
    (k < n)%nat ->
    clock s + 200 * Z.of_nat k - start < max_wait ->
    fst (wait_loop B n e max_wait start st s) = Val true /\
    clock (snd (wait_loop B n e max_wait start st s))
      = clock s + 200 * Z.of_nat k.
Proof.
  intros Hfrozen Hne H95.
  induction k as [|k IH];
    intros n max_wait start st s Hlast Hcount Hlp Hpast Hn Hceil;
    (destruct n as [|n]; [lia|]); rewrite wait_loop_S;
    (replace (clock s - start <? max_wait) with true
       by (symmetry; apply Z.ltb_lt; lia));
    destruct (Hfrozen s) as (s1 & Hs & Hc);
    rewrite (poll_sampled e st s Hs);
    destruct (judge e x (clock s1) st) as [st'|v] eqn:J.
  - exfalso. judge_cases J; try discriminate; try congruence; lia.
  - cbn [fst snd]. split; [reflexivity | lia].
  - assert (Hst : last_text st' = x /\
                  stable_count st' = stable_count st + 1 /\
                  last_progress_time st' = last_progress_time st).
    { judge_cases J; inversion J; subst st';
        cbn [last_text stable_count last_progress_time];
        try congruence; try (repeat split; congruence || lia); lia. }
    destruct Hst as (Hl' & Hc' & Hlp').
    destruct (IH n max_wait start st' (slept 200 s1)) as [Ht Hclock];
      cbn [slept clock]; try assumption; try lia.
    split; [assumption|]. rewrite Hclock. cbn [slept clock]. lia.
  - cbn [fst snd]. split; [reflexivity|].
    exfalso. judge_cases J; try discriminate; try congruence; lia.
Qed.

(** Detection succeeds on a field that shows 95% or more of the prompt and
    stays as it is: after seven samples, 1.2s from the start. *)
Lemma frozen_settles e x :
  frozen_at B x -> x <> [] -> 19 * len e <= 20 * len x ->
  forall s : sys W,
    fst (wait_for_typing_completion B e 300000 s) = Val true /\
    clock (snd (wait_for_typing_completion B e 300000 s)) = clock s + 1200.
Proof.
  intros Hfrozen Hne H95 s.
  unfold wait_for_typing_completion, bind, time_time.
  change (polls 300000) with (S (Z.to_nat 1500)). rewrite wait_loop_S.
  rewrite Z.sub_diag. change (0 <? 300000) with true. cbv iota.
  destruct (Hfrozen s) as (s1 & Hs & Hc).
  rewrite (poll_sampled e _ s Hs).
  assert (J : judge e x (clock s1) (Progress [] 0 (clock s))
              = inl (Progress x 0 (clock s1))).
  { assert (Hx : text_eqb x [] = false) by now apply text_eqb_neq.
    assert (Hl : (0 <? len x) = true).
    { apply Z.ltb_lt. destruct x; [congruence|]. unfold len. simpl length. lia. }
    unfold judge. cbn [last_text stable_count last_progress_time].
    rewrite Hx, Hl. cbn [last_text stable_count last_progress_time].
    rewrite Z.sub_diag. reflexivity. }
  rewrite J.
  destruct (@frozen_counts e x 5 Hfrozen Hne H95
              (Z.to_nat 1500) 300000 (clock s)
              (Progress x 0 (clock s1)) (slept 200 s1)) as [Ht Hclock];
    cbn [slept clock last_text stable_count last_progress_time];
    try reflexivity; try lia.
  split; [assumption|]. rewrite Hclock. cbn [slept clock]. lia.
Qed.

Lemma stall_rule_round e st (s s1 : sys W) current :
  sample B s = (Val current, s1) ->
  current = last_text st \/ current = [] ->
  60000 < clock s1 - last_progress_time st ->
  ((exists v, fst (poll B e st s) = Val (inr v)) <->
   4 * len e <= 5 * len current)
  /\
  (5 * len current < 4 * len e ->
   exists st', fst (poll B e st s) = Val (inl st') /\
               last_progress_time st' = clock s1).
Proof.
  intros Hs Hsame Hlate. rewrite (poll_sampled e st s Hs).
  destruct (judge e current (clock s1) st) as [st'|v] eqn:J; cbn [fst].
  - split.
    + split; [intros [v Hv]; discriminate|]. intros H80. exfalso.
      destruct Hsame as [Hsame | Hsame];
        judge_cases J; try discriminate; try congruence; try lia;
        subst current; simpl in *; lia.
    + intros Hlow. exists st'. split; [reflexivity|].
      destruct Hsame as [Hsame | Hsame];
        judge_cases J; inversion J; subst st';
        cbn [last_text stable_count last_progress_time];
        try reflexivity; try congruence; try lia;
        subst current; simpl in *; lia.
  - split.
    + split; [intros _ | intros _; exists v; reflexivity].
      judge_cases J; try discriminate; lia.
    + intros Hlow. exfalso. judge_cases J; try discriminate; lia.
Qed.

Lemma frozen_accepted e x :
  frozen_at B x -> x <> [] ->
  4 * len e <= 5 * len x -> 20 * len x < 19 * len e ->
  forall s : sys W,
    fst (wait_for_typing_completion B e 300000 s) = Val true /\
    clock (snd (wait_for_typing_completion B e 300000 s)) = clock s + 60200.
Proof.
  intros Hfrozen Hne H80 H95 s.
  unfold wait_for_typing_completion, bind, time_time.
  change (polls 300000) with (S (Z.to_nat 1500)). rewrite wait_loop_S.
  rewrite Z.sub_diag. change (0 <? 300000) with true. cbv iota.
  destruct (Hfrozen s) as (s1 & Hs & Hc).
  rewrite (poll_sampled e _ s Hs).
  assert (J : judge e x (clock s1) (Progress [] 0 (clock s))
              = inl (Progress x 0 (clock s1))).
  { assert (Hx : text_eqb x [] = false) by now apply text_eqb_neq.
    assert (Hl : (0 <? len x) = true).
    { apply Z.ltb_lt. destruct x; [congruence|]. unfold len. simpl length. lia. }
    unfold judge. cbn [last_text stable_count last_progress_time].
    rewrite Hx, Hl. cbn [last_text stable_count last_progress_time].
    rewrite Z.sub_diag. reflexivity. }
  rewrite J.
  destruct (@frozen_stalls e x (Z.to_nat 300) Hfrozen Hne H80 H95
              (Z.to_nat 1500) 300000 (clock s)
              (Progress x 0 (clock s1)) (slept 200 s1)) as [Ht Hclock];
    cbn [slept clock last_text last_progress_time]; try reflexivity; try lia.
  split; [assumption|]. rewrite Hclock. cbn [slept clock]. lia.
Qed.

Lemma under_80_times_out e :
  (forall (s s1 : sys W) current,
     sample B s = (Val current, s1) -> 5 * len current < 4 * len e) ->
  forall s : sys W,
    fst (wait_for_typing_completion B e 300000 s) = Val false /\
    300000 <= clock (snd (wait_for_typing_completion B e 300000 s)) - clock s.
Proof.
  intros Hlow s. unfold wait_for_typing_completion, bind, time_time.
  change (polls 300000) with (S (Z.to_nat 1500)).
  pose proof (@under_80_never_accepted e Hlow (S (Z.to_nat 1500)) 300000
                (clock s) (Progress [] 0 (clock s)) s) as Hf.
  destruct (wait_loop B (S (Z.to_nat 1500)) e 300000 (clock s)
              (Progress [] 0 (clock s)) s) as [r s'] eqn:E.
  cbn [fst snd] in *. subst r. split; [reflexivity|].
  eapply wait_loop_false_ceiling; [|exact E]. lia.
Qed.

(** *** The stall timer and the history of samples *)

Lemma timed_polled e st0 (s0 : sys W) h st s :
  timed B e st0 s0 h st s -> polled B e st0 s0 (map fst h) st s.
Proof.
  induction 1; cbn [map fst];
    [ apply polled_start
    | eapply polled_sample; eassumption
    | eapply polled_raise; eassumption ].
Qed.

(** While the loop runs, [last_text] is the newest sample and
    [last_progress_time] is the last progress recorded, as the stall rule
    words it. *)
Lemma timed_invariant e t0 (s0 : sys W) h st s :
  timed B e (Progress [] 0 t0) s0 h st s ->
  last_text st = hd [] (map fst h) /\
  last_progress_time st = recorded_progress e t0 h.
Proof.
  intros H. remember (Progress [] 0 t0) as st0 eqn:E0.
  induction H as [st s | st0 s0 h st s cur s1 st' s' H IH Hs Hp
                 | st0 s0 h st s x s1 st' s' H IH Hs Hp].
  - subst. split; reflexivity.
  - specialize (IH E0). destruct IH as [Hlast Hlp].
    rewrite (poll_sampled e st s Hs) in Hp.
    destruct (judge e cur (clock s1) st) as [st2|v] eqn:J; [|discriminate].
    inversion Hp; subst st2 s'. clear Hp.
    cbn [map fst hd recorded_progress]. rewrite <- Hlast, <- Hlp.
    rewrite Z.ltb_antisym. unfold judge in J.
    repeat (match type of J with
            | context [if ?b then _ else _] => destruct b eqn:?
            end;
            cbn [last_text stable_count last_progress_time negb andb]
              in J |- *);
      inversion J; subst st';
      cbn [last_text stable_count last_progress_time negb andb];
      repeat match goal with
      | |- context [if ?b then _ else _] => destruct b eqn:?
      end;
      boolify; show_len;
      (split; [congruence|]); try reflexivity; try lia; try congruence.
  - specialize (IH E0).
    rewrite (poll_raised e st s Hs) in Hp. inversion Hp; subst. exact IH.
Qed.

(** Every round of the loop of [wait_for_typing_completion] starts in a
    state that [timed] reaches, and a [True] it returns is the verdict of
    such a round. *)
Lemma wait_loop_timed n e max_wait start st0 (s0 : sys W) h st s s_end :
  timed B e st0 s0 h st s ->
  wait_loop B n e max_wait start st s = (Val true, s_end) ->
  exists h' st' s' v,
    timed B e st0 s0 h' st' s' /\
    poll B e st' s' = (Val (inr v), s_end).
Proof.
  revert h st s. induction n as [|n IH]; intros h st s Hp Hrun.
  - discriminate.
  - rewrite wait_loop_S in Hrun.
    destruct (clock s - start <? max_wait); [|discriminate].
    destruct (poll B e st s) as [[[st'|v]|x] s'] eqn:P; try discriminate.
    + destruct (sample B s) as [[cur|x] s1] eqn:Hs.
      * eapply IH; [|exact Hrun]. eapply timed_sample; eassumption.
      * eapply IH; [|exact Hrun]. eapply timed_raise; eassumption.
    + inversion Hrun; subst. exists h, st, s, v. split; assumption.
Qed.

(** The first rounds of the loop, as [repeat_poll] runs them, are rounds
    of [timed]. *)
Lemma repeat_poll_timed n e st0 (s0 : sys W) :
  forall h st s st' s',
    timed B e st0 s0 h st s ->
    repeat_poll B n e st s = (Val (inl st'), s') ->
    timed B e st0 s0 (seen_at B n e st s h) st' s'.
Proof.
  induction n as [|n IH]; intros h st s st' s' Hp Hrun.
  - inversion Hrun; subst. exact Hp.
  - cbn [repeat_poll seen_at] in *. unfold bind in Hrun.
    destruct (poll B e st s) as [[[st1|v]|x] s1] eqn:P; try discriminate.
    destruct (sample B s) as [[cur|x] s2] eqn:Hs.
    + apply IH; [|exact Hrun]. eapply timed_sample; eassumption.
    + apply IH; [|exact Hrun]. eapply timed_raise; eassumption.
Qed.

(** The stall rule along a run: at a sample that brings no progress, more
    than 60s after the last progress recorded. *)
Lemma stall_rule_timed e t0 (s0 : sys W) h st s current s1 :
  timed B e (Progress [] 0 t0) s0 h st s ->
  sample B s = (Val current, s1) ->
  current = hd [] (map fst h) \/ current = [] ->
  60000 < clock s1 - recorded_progress e t0 h ->
  ((exists v, fst (poll B e st s) = Val (inr v)) <->
   4 * len e <= 5 * len current)
  /\
  (5 * len current < 4 * len e ->
   exists st' s',
     poll B e st s = (Val (inl st'), s') /\
     timed B e (Progress [] 0 t0) s0 ((current, clock s1) :: h) st' s' /\
     recorded_progress e t0 ((current, clock s1) :: h) = clock s1).
Proof.
  intros Ht Hs Hsame Hlate.
  destruct (timed_invariant Ht) as [Hlast Hlp].
  rewrite <- Hlast in Hsame. rewrite <- Hlp in Hlate.
  destruct (stall_rule_round e st s Hs Hsame Hlate) as [Hiff Hlow].
  split; [exact Hiff|].
  intros H80. destruct (Hlow H80) as (st' & Hpoll & Hrestart).
  destruct (poll B e st s) as [r s'] eqn:P. cbn [fst] in Hpoll. subst r.
  assert (Ht' : timed B e (Progress [] 0 t0) s0 ((current, clock s1) :: h)
                  st' s') by (eapply timed_sample; eassumption).
  exists st', s'. split; [reflexivity|]. split; [exact Ht'|].
  destruct (timed_invariant Ht') as [_ Hlp']. congruence.
Qed.

(** The stall rule accepts at such samples only. *)
Lemma stalled_only_then e t0 (s0 : sys W) h st s current s1 :
  timed B e (Progress [] 0 t0) s0 h st s ->
  sample B s = (Val current, s1) ->
  (fst (poll B e st s) = Val (inr Stalled) <->
   fst (poll B e st s) <> Val (inr Stable) /\
   (current = hd [] (map fst h) \/ current = []) /\
   60000 < clock s1 - recorded_progress e t0 h /\
   4 * len e <= 5 * len current).
Proof.
  intros Ht Hs. destruct (timed_invariant Ht) as [Hlast Hlp].
  rewrite <- Hlast, <- Hlp. rewrite (poll_sampled e st s Hs).
  destruct (judge e current (clock s1) st) as [st'|v] eqn:J; cbn [fst].
  - split; [discriminate|]. intros (_ & Hsame & Hlate & H80). exfalso.
    destruct Hsame as [Hsame | Hsame];
      judge_cases J; try discriminate; try congruence; try lia;
      subst current; simpl in *; lia.
  - destruct v.
    + split; [discriminate | intros [H _]; congruence].
    + split; [intros _ | reflexivity].
      split; [discriminate|].
      judge_cases J; try discriminate;
        cbn [last_text stable_count last_progress_time] in *;
        repeat split; auto; try lia;
        destruct current; auto; simpl in *; lia.
Qed.

(** C2, as amended: the progress the detector has recorded is, at every
    round of a run, the start, the time of the last sample whose stripped
    text differed from the one before and was not empty, or the time of the
    last failed stall check, whichever is latest ([recorded_progress]).  At
    a sample that brings no progress (the stripped text is the one of the
    sample before, or is empty) and comes more than 60s after that, the
    detector accepts the text exactly when it is at least 80% of the prompt
    long, and otherwise restarts the stall timer and goes on polling; the
    stall rule accepts at such samples only.  A field frozen at 80% or more
    (and under 95%) is accepted 60.2s after the start, at the first sample
    past the 60s stall; a field frozen under 80% is never accepted, and the
    detector gives up at the 300s ceiling. *)
Theorem stall_rule e :
  (forall st (s s1 : sys W) current,
     sample B s = (Val current, s1) ->
     current = last_text st \/ current = [] ->
     60000 < clock s1 - last_progress_time st ->
     ((exists v, fst (poll B e st s) = Val (inr v)) <->
      4 * len e <= 5 * len current)
     /\
     (5 * len current < 4 * len e ->
      exists st', fst (poll B e st s) = Val (inl st') /\
                  last_progress_time st' = clock s1))
  /\
  (forall x, frozen_at B x -> x <> [] ->
     4 * len e <= 5 * len x -> 20 * len x < 19 * len e ->
     forall s : sys W,
       fst (wait_for_typing_completion B e 300000 s) = Val true /\
       clock (snd (wait_for_typing_completion B e 300000 s))
         = clock s + 60200)
  /\
  (forall x, frozen_at B x -> 5 * len x < 4 * len e ->
     forall s : sys W,
       fst (wait_for_typing_completion B e 300000 s) = Val false /\
       300000
         <= clock (snd (wait_for_typing_completion B e 300000 s)) - clock s)
  /\
  (forall t0 (s0 : sys W) h st s,
     timed B e (Progress [] 0 t0) s0 h st s ->
     last_text st = hd [] (map fst h) /\
     last_progress_time st = recorded_progress e t0 h)
  /\
  (forall t0 (s0 : sys W) h st s current s1,
     timed B e (Progress [] 0 t0) s0 h st s ->
     sample B s = (Val current, s1) ->
     (current = hd [] (map fst h) \/ current = [] ->
      60000 < clock s1 - recorded_progress e t0 h ->
      ((exists v, fst (poll B e st s) = Val (inr v)) <->
       4 * len e <= 5 * len current)
      /\
      (5 * len current < 4 * len e ->
       exists st' s',
         poll B e st s = (Val (inl st'), s') /\
         timed B e (Progress [] 0 t0) s0 ((current, clock s1) :: h) st' s' /\
         recorded_progress e t0 ((current, clock s1) :: h) = clock s1))
     /\
     (fst (poll B e st s) = Val (inr Stalled) <->
      fst (poll B e st s) <> Val (inr Stable) /\
      (current = hd [] (map fst h) \/ current = []) /\
      60000 < clock s1 - recorded_progress e t0 h /\
      4 * len e <= 5 * len current))
  /\
  (forall max_wait (s s_end : sys W),
     wait_for_typing_completion B e max_wait s = (Val true, s_end) ->
     exists h st s' v,
       timed B e (Progress [] 0 (clock s)) s h st s' /\
       poll B e st s' = (Val (inr v), s_end)).
Proof.
  split; [|split; [|split; [|split; [|split]]]].
  - intros st s s1 current. apply stall_rule_round.
  - intros x. apply frozen_accepted.
  - intros x Hfrozen Hlow. apply under_80_times_out.
    intros s s1 current Hs. destruct (Hfrozen s) as (s2 & Hs2 & _).
    rewrite Hs in Hs2. inversion Hs2; subst. assumption.
  - intros t0 s0 h st s. apply timed_invariant.
  - intros t0 s0 h st s current s1 Ht Hs. split.
    + now apply stall_rule_timed with (st := st) (s := s).
    + now apply stalled_only_then with (s0 := s0) (s := s).
  - intros max_wait s s_end Hrun.
    unfold wait_for_typing_completion, bind, time_time in Hrun.
    eapply wait_loop_timed; [apply timed_start | exact Hrun].
Qed.

(** *** Monad laws used below *)

Lemma bind_val_inv {A C} (m : M W A) (k : A -> M W C) s c s' :
  bind m k s = (Val c, s') ->
  exists a s1, m s = (Val a, s1) /\ k a s1 = (Val c, s').
Proof.
  unfold bind. destruct (m s) as [[a|x] s1]; [eauto | discriminate].
Qed.

Lemma bind_val {A C} (m : M W A) (k : A -> M W C) s a s1 :
  m s = (Val a, s1) -> bind m k s = k a s1.
Proof. unfold bind. now intros ->. Qed.

Lemma bind_exn {A C} (m : M W A) (k : A -> M W C) s x s1 :
  m s = (Exn x, s1) -> bind m k s = (Exn x, s1).
Proof. unfold bind. now intros ->. Qed.

(** [except Exception as e: ...; raise] changes nothing. *)
Lemma try_reraise {A} (m : M W A) s :
  try_except m (fun e => raise e) s = m s.
Proof. unfold try_except, raise. destruct (m s) as [[a|x] s']; reflexivity. Qed.

(** *** The check after the ceiling *)

(** The detector always returns, and returns [False] only when its
    ceiling has passed. *)
Lemma wait_false_at_ceiling e max_wait (s s' : sys W) :
  wait_for_typing_completion B e max_wait s = (Val false, s') ->
  max_wait <= clock s' - clock s.
Proof.
  unfold wait_for_typing_completion, bind, time_time, polls.
  intros H. eapply wait_loop_false_ceiling; [|exact H].
  pose proof (Z.div_mod (max_wait + 199) 200 ltac:(lia)) as D.
  pose proof (Z.mod_pos_bound (max_wait + 199) 200 ltac:(lia)) as R.
  destruct (Z.le_gt_cases 0 ((max_wait + 199) / 200)).
  - rewrite Z2Nat.id by assumption. lia.
  - lia.
Qed.

Lemma wait_total e max_wait (s : sys W) :
  exists b s', wait_for_typing_completion B e max_wait s = (Val b, s').
Proof.
  unfold wait_for_typing_completion, bind, time_time. apply wait_loop_total.
Qed.

(** C3: when the detector has returned [False], which it does only with
    its 300s ceiling passed, the operation reads the field once more; it
    fails if the stripped text is shorter than half the prompt, and
    otherwise goes on to the mode selection and the submission. *)
Theorem final_check_rule contentToType mode (s s1 s2 : sys W) final_text :
  enter_prompt B contentToType s = (Val false, s1) ->
  (current_input <- safe_find_input B;; read_text B current_input) s1
    = (Val final_text, s2) ->
  (exists s0,
     wait_for_typing_completion B contentToType 300000 s0 = (Val false, s1) /\
     300000 <= clock s1 - clock s0)
  /\
  inputFieldCheck B contentToType mode s =
    if 2 * len (strip final_text) <? len contentToType
    then (Exn (Exception
                 "Cannot verify text completion after extended wait"), s2)
    else mode_and_submit B contentToType mode s2.
Proof.
  intros Htyped Hread. split.
  - unfold enter_prompt in Htyped.
    do 6 (apply bind_val_inv in Htyped;
          destruct Htyped as (? & ? & _ & Htyped)).
    eexists. split; [exact Htyped|].
    now apply wait_false_at_ceiling with (e := contentToType).
  - apply bind_val_inv in Hread.
    destruct Hread as (el & s1' & Hfind & Hread).
    unfold inputFieldCheck. rewrite try_reraise.
    erewrite bind_val by exact Htyped. cbn [negb].
    unfold final_text_check.
    unfold bind at 1, try_except, bind at 1. rewrite Hfind.
    unfold bind at 1. rewrite Hread.
    destruct (2 * len (strip final_text) <? len contentToType); reflexivity.
Qed.

(** If that last read raises, the operation fails as well. *)
Lemma final_check_unreadable contentToType mode (s s1 s2 : sys W) x :
  enter_prompt B contentToType s = (Val false, s1) ->
  (current_input <- safe_find_input B;; read_text B current_input) s1
    = (Exn x, s2) ->
  inputFieldCheck B contentToType mode s =
    (Exn (Exception "Cannot verify text completion after extended wait"), s2).
Proof.
  intros Htyped Hread.
  unfold inputFieldCheck. rewrite try_reraise.
  erewrite bind_val by exact Htyped. cbn [negb].
  unfold final_text_check.
  unfold bind at 1, try_except.
  unfold bind in Hread |- *.
  destruct (safe_find_input B s1) as [[el|y] s1'].
  - destruct (read_text B el s1') as [[t|y] s1'']; [discriminate|].
    inversion Hread; subst. reflexivity.
  - inversion Hread; subst. reflexivity.
Qed.

(** With the typing seen complete, no further read is made. *)
Lemma typing_confirmed contentToType mode (s s1 : sys W) :
  enter_prompt B contentToType s = (Val true, s1) ->
  inputFieldCheck B contentToType mode s
    = mode_and_submit B contentToType mode s1.
Proof.
  intros Htyped. unfold inputFieldCheck. rewrite try_reraise.
  erewrite bind_val by exact Htyped. reflexivity.
Qed.

(** *** The citation marker *)

(** C4: the text returned is the part of the clipboard text before the
    first ["[1]"], and the whole text when it holds no ["[1]"]. *)
Theorem citation_truncation (clipboard_content : text) :
  (~ occurs (str "[1]") clipboard_content ->
   cleaned_citation_string clipboard_content = clipboard_content)
  /\
  (forall p r,
     clipboard_content = p ++ str "[1]" ++ r ->
     (forall p' r', clipboard_content = p' ++ str "[1]" ++ r' ->
                    (length p <= length p')%nat) ->
     cleaned_citation_string clipboard_content = p)
  /\
  cleaned_citation_string (str "Answer text [1][2] more")
    = str "Answer text ".
Proof.
  split; [|split].
  - intros H. destruct clipboard_content as [|c t]; [reflexivity|].
    unfold cleaned_citation_string, split.
    now rewrite hd_split_from_absent.
  - intros p r E Hmin. subst clipboard_content.
    assert (Hcut : hd [] (split (str "[1]") (p ++ str "[1]" ++ r)) = p).
    { unfold split. rewrite hd_split_from_first;
        [reflexivity | discriminate | assumption]. }
    unfold cleaned_citation_string.
    destruct (p ++ str "[1]" ++ r) eqn:E; [|exact Hcut].
    destruct p; [discriminate E | discriminate E].
  - reflexivity.
Qed.

(** [getResult] returns the text so cleaned when the clipboard gave one. *)
Lemma getResult_cleaned (s s1 s2 : sys W) clipboard_content :
  driver locate_and_copy s = (Val tt, s1) ->
  read_clipboard B [0; 1; 2] None (slept 3000 s1)
    = (Val (Some clipboard_content), s2) ->
  clipboard_content <> [] ->
  getResult B s = (Val (cleaned_citation_string clipboard_content), s2).
Proof.
  intros Hcopy Hclip Hne. unfold getResult. rewrite try_reraise.
  erewrite bind_val by exact Hcopy.
  unfold bind at 1. unfold sleep at 1. fold (slept 3000 s1).
  erewrite bind_val by exact Hclip.
  destruct clipboard_content; [congruence | reflexivity].
Qed.

(** *** Typing the prompt *)

Lemma split_from_absent c cur s :
  ~ In c s -> split_from [c] 0 cur s = [cur ++ s].
Proof.
  revert cur; induction s as [|a s IH]; intros cur H; simpl.
  - now rewrite app_nil_r.
  - destruct (N.eqb c a) eqn:E; simpl.
    + apply N.eqb_eq in E. subst. exfalso. apply H. now left.
    + rewrite IH by (intros Hin; apply H; now right).
      now rewrite <- app_assoc.
Qed.

Lemma type_parts_trace parts : forall el n i (s s' : sys W),
  type_parts B el n i parts s = (Val tt, s') ->
  n = i + Z.of_nat (length parts) ->
  trace s' = trace s ++
    map (fun keys => Called (send_keys el keys) true)
        (with_soft_newlines parts).
Proof.
  induction parts as [|part rest IH]; intros el n i s s' Hrun Hn.
  - inversion Hrun; subst. simpl. now rewrite app_nil_r.
  - cbn [type_parts] in Hrun.
    apply bind_val_inv in Hrun. destruct Hrun as ([] & s1 & Hsend & Hrun).
    apply bind_val_inv in Hrun. destruct Hrun as ([] & s2 & Hsoft & Hrun).
    destruct (perform_cases (send_keys el part) s)
      as [(a & s1' & E & _ & Ht) | (msg & s1' & E & _ & _)];
      rewrite E in Hsend; [|discriminate]. inversion Hsend; subst s1'.
    specialize (IH el n (i + 1) s2 s' Hrun).
    destruct rest as [|part' rest'].
    + replace (i <? n - 1) with false in Hsoft
        by (symmetry; apply Z.ltb_ge; simpl in Hn; lia).
      inversion Hsoft; subst s2. inversion Hrun; subst s'.
      rewrite Ht. reflexivity.
    + replace (i <? n - 1) with true in Hsoft
        by (symmetry; apply Z.ltb_lt; simpl length in Hn; lia).
      destruct (perform_cases (send_keys el (Keys_SHIFT ++ Keys_ENTER)) s1)
        as [(a' & s2' & E' & _ & Ht') | (msg & s2' & E' & _ & _)];
        rewrite E' in Hsoft; [|discriminate]. inversion Hsoft; subst s2'.
      rewrite IH by (simpl length in *; lia).
      rewrite Ht', Ht.
      change (with_soft_newlines (part :: part' :: rest'))
        with (part :: (Keys_SHIFT ++ Keys_ENTER)
                :: with_soft_newlines (part' :: rest')).
      cbn [map]. rewrite <- !app_assoc. reflexivity.
Qed.

(** C5: the typing sends the segments between the newlines of the prompt,
    each followed by one soft newline except the last; no segment holds a
    newline, and the segments joined by newlines are the prompt. *)
Theorem typing_round_trip el contentToType (s s' : sys W) :
  type_prompt B el contentToType s = (Val tt, s') ->
  trace s' = trace s ++
    map (fun keys => Called (send_keys el keys) true)
        (with_soft_newlines (split newline contentToType))
  /\ Forall (fun part => ~ In 10%N part) (split newline contentToType)
  /\ join newline (split newline contentToType) = contentToType.
Proof.
  intros Hrun. split; [|split].
  - unfold type_prompt in Hrun.
    destruct (contains 10%N contentToType) eqn:E.
    + now apply type_parts_trace with (n := Z.of_nat
        (length (split newline contentToType))) (i := 0).
    + assert (Hno : ~ In 10%N contentToType).
      { intros Hin. apply contains_In in Hin. congruence. }
      unfold split, newline. rewrite split_from_absent by assumption.
      destruct (perform_cases (send_keys el contentToType) s)
        as [(a & s1 & E1 & _ & Ht) | (msg & s1 & E1 & _ & _)];
        rewrite E1 in Hrun; [|discriminate].
      inversion Hrun; subst. rewrite Ht. reflexivity.
  - apply split_from_char_free. intros [].
  - apply join_split. discriminate.
Qed.

(** *** The keyboard fallback *)

Lemma soft_newlines_newline_free parts :
  Forall (fun part => ~ In 10%N part) parts ->
  Forall (fun keys => ~ In 10%N keys) (with_soft_newlines parts).
Proof.
  induction 1 as [|part rest Hpart Hrest IH]; [constructor|].
  destruct rest as [|part' rest'].
  - constructor; [assumption | constructor].
  - change (with_soft_newlines (part :: part' :: rest'))
      with (part :: (Keys_SHIFT ++ Keys_ENTER)
              :: with_soft_newlines (part' :: rest')).
    constructor; [assumption|]. constructor; [|assumption].
    simpl. intros [H | [H | []]]; discriminate.
Qed.

(** C10: when the keyboard fallback finds the field empty, the first keys it
    sends are the whole prompt in one [send_keys], newlines included; the
    initial typing never sends a newline character, so for a prompt with
    newlines the re-typed keys are none of the keys typed at first. *)
Theorem retyped_raw contentToType (s s1 s2 : sys W) el current_text :
  safe_find_input B s = (Val el, s1) ->
  read_text B el s1 = (Val current_text, s2) ->
  strip current_text = [] ->
  (exists evs ok rest,
     trace (snd (keyboard_submit B contentToType s)) = trace s2 ++ evs /\
     hd_error evs = Some (Called (send_keys el contentToType) ok) /\
     keys_sent evs = contentToType :: rest)
  /\ Forall (fun keys => ~ In 10%N keys)
       (with_soft_newlines (split newline contentToType))
  /\ (In 10%N contentToType ->
      ~ In contentToType (with_soft_newlines (split newline contentToType))).
Proof.
  intros Hfind Hread Hempty.
  assert (Hfree : Forall (fun keys => ~ In 10%N keys)
                    (with_soft_newlines (split newline contentToType))).
  { apply soft_newlines_newline_free, split_from_char_free. intros []. }
  split; [|split; [exact Hfree|]].
  - unfold keyboard_submit.
    erewrite bind_val by exact Hfind. erewrite bind_val by exact Hread.
    rewrite Hempty. change (len [] =? 0) with true. cbv iota.
    unfold bind, sleep.
    destruct (perform_cases (send_keys el contentToType) s2)
      as [(a & s3 & E & _ & Ht) | (msg & s3 & E & _ & Ht)]; rewrite E.
    + cbn [clock page trace].
      match goal with
      | |- context [perform B ?c ?s] =>
          destruct (perform_cases c s)
            as [(a' & s4 & E' & _ & Ht') | (msg & s4 & E' & _ & Ht')];
          rewrite E'; cbn [snd trace] in *
      end.
      * exists [Called (send_keys el contentToType) true; Slept 200;
                Called (send_keys el (Keys_CONTROL ++ Keys_RETURN)) true;
                Slept 2000], true, [Keys_CONTROL ++ Keys_RETURN].
        rewrite Ht', Ht. rewrite <- !app_assoc. repeat split.
      * exists [Called (send_keys el contentToType) true; Slept 200;
                Called (send_keys el (Keys_CONTROL ++ Keys_RETURN)) false],
               true, [Keys_CONTROL ++ Keys_RETURN].
        rewrite Ht', Ht. rewrite <- !app_assoc. repeat split.
    + exists [Called (send_keys el contentToType) false], false, [].
      cbn [snd]. rewrite Ht. repeat split.
  - intros Hnl Hin. rewrite Forall_forall in Hfree.
    exact (Hfree _ Hin Hnl).
Qed.

(** *** Research mode *)

(** Evaluate the tests of the goal that are closed. *)
Ltac decide_tests :=
  cbv beta iota;
  repeat match goal with
  | |- context [if ?b then _ else _] =>
      let v := eval vm_compute in b in
      match v with
      | true => change b with true
      | false => change b with false
      end; cbv beta iota
  end.

(** The next call of the goal raises, by [Habsent]. *)
Ltac absent_step Habsent :=
  match goal with
  | |- context [perform ?B ?c ?s] =>
      let a := fresh "a" in
      let msg := fresh "msg" in
      let s' := fresh "s" in
      let E := fresh "E" in
      let E' := fresh "E'" in
      let Ht := fresh "Ht" in
      destruct (perform_cases c s)
        as [(a & s' & E & _ & Ht) | (msg & s' & E & _ & Ht)];
      [ destruct (Habsent s) as (? & ? & E'); rewrite E' in E; discriminate
      | rewrite E; cbn [trace clock page] in Ht |- * ]
  end.

(** [select_research_mode] never raises. *)
Lemma select_research_mode_total (s : sys W) :
  exists b s', select_research_mode B s = (Val b, s').
Proof.
  unfold select_research_mode, try_except.
  match goal with
  | |- exists _ _, match ?m with _ => _ end = _ =>
      destruct m as [[b|x] s']
  end; unfold ret; eauto.
Qed.

(** With the toggle absent at each of the three lookups, the selection
    gives up after two pauses of one second. *)
Lemma toggle_absent (s : sys W) :
  (forall s0 : sys W, exists x s1,
     driver (find_element "[data-testid='search-mode-research']") s0
       = (Exn x, s1)) ->
  fst (select_research_mode B s) = Val false /\
  trace (snd (select_research_mode B s)) = trace s ++
    [Called (find_element "[data-testid='search-mode-research']") false;
     Slept 1000;
     Called (find_element "[data-testid='search-mode-research']") false;
     Slept 1000;
     Called (find_element "[data-testid='search-mode-research']") false].
Proof.
  intros Habsent.
  unfold select_research_mode, try_except, research_lookup, research_attempt.
  unfold bind, catch, sleep, ret.
  repeat (absent_step Habsent; decide_tests).
  cbn [fst snd trace]. split; [reflexivity|].
  rewrite Ht1, Ht0, Ht. rewrite <- !app_assoc. reflexivity.
Qed.

(** With the toggle found, a native click and a scripted click that both
    raise make the selection return [False]. *)
Lemma clicks_fail (s s1 s2 s3 : sys W) b x1 x2 :
  research_lookup B [0; 1; 2] 3 None s = (Val (Some (Some b)), s1) ->
  driver (click b) s1 = (Exn x1, s2) ->
  driver (script_click b) s2 = (Exn x2, s3) ->
  select_research_mode B s = (Val false, s3).
Proof.
  intros Hlook Hclick Hscript.
  unfold select_research_mode, try_except at 1.
  erewrite bind_val by exact Hlook.
  unfold try_except, bind. rewrite Hclick, Hscript. reflexivity.
Qed.

(** C8: the selection of the research mode always returns, never raises;
    with the mode requested, the submission that follows is the one of the
    default mode, run from where the selection left the page, whatever the
    selection returned.  In particular an absent toggle (three lookups, two
    pauses of one second) and a toggle whose two clicks raise only make the
    selection return [False]. *)
Theorem research_mode_non_fatal contentToType (s : sys W) :
  (exists b s',
     select_research_mode B s = (Val b, s') /\
     mode_and_submit B contentToType true s
       = mode_and_submit B contentToType false s')
  /\
  ((forall s0 : sys W, exists x s1,
      driver (find_element "[data-testid='search-mode-research']") s0
        = (Exn x, s1)) ->
   fst (select_research_mode B s) = Val false /\
   trace (snd (select_research_mode B s)) = trace s ++
     [Called (find_element "[data-testid='search-mode-research']") false;
      Slept 1000;
      Called (find_element "[data-testid='search-mode-research']") false;
      Slept 1000;
      Called (find_element "[data-testid='search-mode-research']") false])
  /\
  (forall s1 s2 s3 b x1 x2,
     research_lookup B [0; 1; 2] 3 None s = (Val (Some (Some b)), s1) ->
     driver (click b) s1 = (Exn x1, s2) ->
     driver (script_click b) s2 = (Exn x2, s3) ->
     select_research_mode B s = (Val false, s3)).
Proof.
  split; [|split].
  - destruct (select_research_mode_total s) as (b & s' & E).
    exists b, s'. split; [assumption|].
    unfold mode_and_submit. unfold bind at 1 2. rewrite E. reflexivity.
  - apply toggle_absent.
  - intros s1 s2 s3 b x1 x2. apply clicks_fail.
Qed.

(** *** Submission *)

(** Take the next call of the goal both ways. *)
Ltac either_way :=
  match goal with
  | |- context [perform ?B ?c ?s] =>
      let a := fresh "a" in
      let msg := fresh "msg" in
      let s' := fresh "s" in
      let E := fresh "E" in
      let Ht := fresh "Ht" in
      destruct (perform_cases c s)
        as [(a & s' & E & _ & Ht) | (msg & s' & E & _ & Ht)];
      rewrite E; cbn [trace clock page] in Ht |- *
  end.

(** Split on what a visibility check returned. *)
Ltac either_shown :=
  match goal with
  | |- context [if ?b then _ else _] => is_var b; destruct b
  | |- context [match ?b with true => _ | false => _ end] =>
      is_var b; destruct b
  end.

(** Read the events of a run off the equations its calls left. *)
Ltac collect_trace :=
  cbn [fst snd trace];
  repeat match goal with
  | H : trace ?x = _ |- context [trace ?x] => rewrite H; clear H
  end;
  rewrite <- ?app_assoc; cbn [app]; reflexivity.

(** The search for the submit control: at most three lookups by test
    identifier, each right after a pause of 200ms; at most one lookup by
    label, made only when the three others have been, right after a call
    that raised.  The search itself never raises. *)
Lemma find_submit_trace (s : sys W) :
  exists evs,
    trace (snd (find_submit B 3 0 3 None s)) = trace s ++ evs /\
    (exists b, fst (find_submit B 3 0 3 None s) = Val b) /\
    (1 <= tally (is_lookup "button[data-testid='submit-button']") evs <= 3)%nat /\
    tally (is_pause 200) evs
      = tally (is_lookup "button[data-testid='submit-button']") evs /\
    spaced false evs = true /\
    (tally (is_lookup "button[aria-label='Submit']") evs <= 1)%nat /\
    (tally (is_lookup "button[aria-label='Submit']") evs = 1%nat ->
     tally (is_lookup "button[data-testid='submit-button']") evs = 3%nat) /\
    only_after_failure false evs = true.
Proof.
  cbn [find_submit]. unfold submit_attempt, aria_fallback.
  unfold bind, catch, sleep, ret.
  decide_tests.
  repeat (first [either_way | either_shown]; decide_tests);
    (eexists; split; [collect_trace|]);
    (split; [eexists; reflexivity|]);
    vm_compute; repeat split; intros; try discriminate; try lia.
Qed.












(** *** What a computation adds to the trace *)

Lemma emits_ret {A} P (a : A) : emits P (ret a : M W A).
Proof. intros s. exists []. simpl. now rewrite app_nil_r. Qed.

Lemma emits_raise {A} P x : emits P (raise x : M W A).
Proof. intros s. exists []. simpl. now rewrite app_nil_r. Qed.

Lemma emits_time P : emits P (time_time : M W Z).
Proof. intros s. exists []. simpl. now rewrite app_nil_r. Qed.

Lemma emits_sleep (P : event -> Prop) ms :
  P (Slept ms) -> emits P (sleep ms : M W unit).
Proof. intros H s. exists [Slept ms]. simpl. split; [reflexivity | auto]. Qed.

Lemma emits_perform (P : event -> Prop) c :
  (forall ok, P (Called c ok)) -> emits P (driver c).
Proof.
  intros H s.
  destruct (perform_cases c s)
    as [(a & s' & E & _ & Ht) | (msg & s' & E & _ & Ht)]; rewrite E;
    eexists; (split; [exact Ht | auto]).
Qed.

Lemma emits_bind {A C} P (m : M W A) (k : A -> M W C) :
  emits P m -> (forall a, emits P (k a)) -> emits P (bind m k).
Proof.
  intros Hm Hk s. unfold bind. destruct (Hm s) as (evs & Ht & Hp).
  destruct (m s) as [[a|x] s1]; simpl in Ht.
  - destruct (Hk a s1) as (evs' & Ht' & Hp'). exists (evs ++ evs').
    rewrite Ht', Ht, app_assoc. split; [reflexivity | now apply Forall_app].
  - exists evs. split; assumption.
Qed.

Lemma emits_try_except {A} P (m : M W A) handler :
  emits P m -> (forall e, emits P (handler e)) ->
  emits P (try_except m handler).
Proof.
  intros Hm Hh s. unfold try_except. destruct (Hm s) as (evs & Ht & Hp).
  destruct (m s) as [[a|x] s1]; simpl in Ht.
  - exists evs. split; assumption.
  - destruct (Hh x s1) as (evs' & Ht' & Hp'). exists (evs ++ evs').
    rewrite Ht', Ht, app_assoc. split; [reflexivity | now apply Forall_app].
Qed.

Lemma emits_catch {A} P (m : M W A) : emits P m -> emits P (catch m).
Proof.
  intros Hm s. unfold catch. destruct (Hm s) as (evs & Ht & Hp).
  destruct (m s) as [[a|x] s1]; exists evs; split; assumption.
Qed.

(** Build the frame of a computation from the frames of its parts. *)
Create HintDb frame.

Ltac frame :=
  repeat first
    [ simple apply emits_ret
    | simple apply emits_raise
    | simple apply emits_time
    | simple apply emits_sleep; exact I
    | match goal with
      | |- emits ?P (perform _ ?c) => exact (@emits_perform P c (fun _ => I))
      end
    | simple apply emits_bind; [|intros ?]
    | simple apply emits_try_except; [|intros ?]
    | simple apply emits_catch
    | solve [auto 2 with frame nocore]
    | match goal with
      | |- emits _ (if ?b then _ else _) => destruct b
      | |- emits _ (match ?x with _ => _ end) => destruct x
      end ].

Lemma emits_safe_find_input : emits on_page (safe_find_input B).
Proof. unfold safe_find_input. frame. Qed.
#[local] Hint Resolve emits_safe_find_input : frame.

Lemma emits_read_text el : emits on_page (read_text B el).
Proof. unfold read_text. frame. Qed.
#[local] Hint Resolve emits_read_text : frame.

Lemma emits_sample : emits on_page (sample B).
Proof. unfold sample. frame. Qed.
#[local] Hint Resolve emits_sample : frame.

Lemma emits_poll e st : emits on_page (poll B e st).
Proof. unfold poll, count_stable, check_stall. frame. Qed.
#[local] Hint Resolve emits_poll : frame.

Lemma emits_wait_loop n e max_wait start :
  forall st, emits on_page (wait_loop B n e max_wait start st).
Proof. induction n as [|n IH]; intros st; cbn [wait_loop]; frame. Qed.
#[local] Hint Resolve emits_wait_loop : frame.

Lemma emits_wait_for_typing_completion e max_wait :
  emits on_page (wait_for_typing_completion B e max_wait).
Proof. unfold wait_for_typing_completion. frame. Qed.
#[local] Hint Resolve emits_wait_for_typing_completion : frame.

Lemma emits_research_lookup attempts max_attempts :
  forall b, emits on_page (research_lookup B attempts max_attempts b).
Proof.
  induction attempts as [|attempt rest IH]; intros b;
    cbn [research_lookup]; unfold research_attempt; frame.
Qed.
#[local] Hint Resolve emits_research_lookup : frame.

Lemma emits_select_research_mode : emits on_page (select_research_mode B).
Proof. unfold select_research_mode. frame. Qed.
#[local] Hint Resolve emits_select_research_mode : frame.

Lemma emits_type_parts el n parts :
  forall i, emits on_page (type_parts B el n i parts).
Proof.
  induction parts as [|part rest IH]; intros i; cbn [type_parts]; frame.
Qed.
#[local] Hint Resolve emits_type_parts : frame.

Lemma emits_find_submit n max_attempts :
  forall attempt b, emits on_page (find_submit B n attempt max_attempts b).
Proof.
  induction n as [|n IH]; intros attempt b; cbn [find_submit];
    unfold submit_attempt, aria_fallback; frame.
Qed.
#[local] Hint Resolve emits_find_submit : frame.

Lemma emits_read_clipboard attempts :
  forall c, emits on_page (read_clipboard B attempts c).
Proof.
  induction attempts as [|attempt rest IH]; intros c;
    cbn [read_clipboard]; frame.
Qed.
#[local] Hint Resolve emits_read_clipboard : frame.

Lemma emits_inputFieldCheck contentToType mode :
  emits on_page (inputFieldCheck B contentToType mode).
Proof.
  unfold inputFieldCheck, enter_prompt, final_text_check, mode_and_submit,
    dispatch_submit, keyboard_submit, enter_submit, type_prompt.
  frame.
Qed.

Lemma emits_getResult : emits on_page (getResult B).
Proof. unfold getResult. frame. Qed.

(** *** Sessions *)

Lemma sessions_opened_app evs evs' :
  sessions_opened (evs ++ evs') = (sessions_opened evs + sessions_opened evs')%nat.
Proof.
  induction evs as [|ev evs IH]; [reflexivity|].
  destruct ev as [[] []|]; simpl; rewrite ?IH; reflexivity.
Qed.

Lemma sessions_closed_app evs evs' :
  sessions_closed (evs ++ evs') = (sessions_closed evs + sessions_closed evs')%nat.
Proof.
  induction evs as [|ev evs IH]; [reflexivity|].
  destruct ev as [[] ?|]; simpl; rewrite ?IH; reflexivity.
Qed.

Lemma on_page_no_session evs :
  Forall on_page evs -> sessions_opened evs = 0%nat /\ sessions_closed evs = 0%nat.
Proof.
  induction 1 as [|ev evs Hev _ [IHo IHc]]; [split; reflexivity|].
  destruct ev as [[] []|]; simpl in *; try contradiction; split; assumption.
Qed.

(** What [run_perplexity] adds to the trace: the launch alone when it
    raises; otherwise the launch, events of the page, and [quit()]. *)
Lemma run_perplexity_trace env prompt mode (s : sys W) :
  exists evs,
    trace (snd (run_perplexity B str_HTTPException env prompt mode s))
      = trace s ++ evs /\
    match driver (Driver (getenv env "./chrome-debug-4")) s with
    | (Val _, _) =>
        exists middle ok,
          evs = Called (Driver (getenv env "./chrome-debug-4")) true
                  :: middle ++ [Called quit ok] /\
          Forall on_page middle
    | (Exn _, _) => evs = [Called (Driver (getenv env "./chrome-debug-4")) false]
    end.
Proof.
  unfold run_perplexity. cbv zeta.
  unfold bind at 1, catch.
  destruct (perform_cases (Driver (getenv env "./chrome-debug-4")) s)
    as [(a & s1 & E & _ & Ht) | (msg & s1 & E & _ & Ht)]; rewrite E.
  - unfold try_finally.
    match goal with
    | |- context [try_except ?m ?h s1] =>
        assert (Hbody : emits on_page (try_except m h))
          by (frame; auto using emits_inputFieldCheck, emits_getResult);
        destruct (Hbody s1) as (middle & Hm & Hpage);
        destruct (try_except m h s1) as [r s2]
    end.
    cbn [snd] in Hm.
    destruct (perform_cases quit s2)
      as [(a' & s3 & E' & _ & Ht') | (msg & s3 & E' & _ & Ht')]; rewrite E';
      cbn [snd];
      (eexists; split;
       [ rewrite Ht', Hm, Ht, <- !app_assoc; reflexivity
       | exists middle; eexists; split; [reflexivity | assumption] ]).
  - exists [Called (Driver (getenv env "./chrome-debug-4")) false]. cbn [snd].
    split; [assumption | reflexivity].
Qed.

(** C6, as amended: a request whose session launches opens exactly one
    session, first thing, and closes exactly one, last thing, whatever
    happens in between; a request whose launch raises opens none and closes
    none.  In both cases as many sessions are closed as were opened, and
    every request launches its own. *)
Theorem session_lifecycle env prompt mode (s : sys W) :
  exists evs,
    trace (snd (run_perplexity B str_HTTPException env prompt mode s))
      = trace s ++ evs /\
    sessions_opened evs = sessions_closed evs /\
    match driver (Driver (getenv env "./chrome-debug-4")) s with
    | (Val _, _) =>
        sessions_opened evs = 1%nat /\
        hd_error evs
          = Some (Called (Driver (getenv env "./chrome-debug-4")) true) /\
        exists ok, last evs (Slept 0) = Called quit ok
    | (Exn _, _) =>
        sessions_opened evs = 0%nat /\
        evs = [Called (Driver (getenv env "./chrome-debug-4")) false]
    end.
Proof.
  destruct (run_perplexity_trace env prompt mode s) as (evs & Ht & Hshape).
  exists evs. split; [assumption|].
  destruct (driver (Driver (getenv env "./chrome-debug-4")) s) as [[a|x] s1].
  - destruct Hshape as (middle & ok & -> & Hpage).
    destruct (on_page_no_session Hpage) as [Ho Hc].
    assert (Hopen : sessions_opened
              (Called (Driver (getenv env "./chrome-debug-4")) true
                 :: middle ++ [Called quit ok]) = 1%nat).
    { cbn [sessions_opened]. rewrite sessions_opened_app, Ho. reflexivity. }
    split; [|split; [assumption | split; [reflexivity|]]].
    + rewrite Hopen. cbn [sessions_closed].
      rewrite sessions_closed_app, Hc. reflexivity.
    + exists ok. rewrite app_comm_cons. apply last_last.
  - subst evs. repeat split.
Qed.

(** *** The endpoint *)

(** [run_perplexity] returns a text exactly when the launch, the
    navigation, the submission, the extraction and the closing all
    succeed. *)
Lemma run_perplexity_success env prompt mode (s s' : sys W) r :
  run_perplexity B str_HTTPException env prompt mode s = (Val r, s') <->
  exists s1 s2 s3 s4,
    driver (Driver (getenv env "./chrome-debug-4")) s = (Val tt, s1) /\
    driver (uc_open_with_reconnect "https://perplexity.ai" 6) s1
      = (Val tt, s2) /\
    inputFieldCheck B prompt mode (slept 10000 s2) = (Val tt, s3) /\
    getResult B s3 = (Val r, s4) /\
    driver quit s4 = (Val tt, s').
Proof.
  unfold run_perplexity. cbv zeta. unfold bind at 1, catch.
  unfold try_finally, try_except, bind, sleep, raise, ret.
  destruct (driver (Driver (getenv env "./chrome-debug-4")) s)
    as [[[]|x] s1] eqn:E1.
  2:{ split; [discriminate|]. intros (? & ? & ? & ? & H & _). discriminate H. }
  destruct (driver (uc_open_with_reconnect "https://perplexity.ai" 6) s1)
    as [[[]|x] s2] eqn:E2; fold (slept 10000 s2);
    [ destruct (inputFieldCheck B prompt mode (slept 10000 s2))
        as [[[]|x] s3] eqn:E3;
      [ destruct (getResult B s3) as [[r'|x] s4] eqn:E4 | ] | ];
    match goal with
    | |- context [perform B quit ?s5] =>
        destruct (driver quit s5) as [[[]|y] s6] eqn:E5
    end;
    (split;
     [ intros H; inversion H; subst; eauto 10
     | intros (? & ? & ? & ? & H1 & H2 & H3 & H4 & H5);
       repeat match goal with
       | H : (_, _) = (_, _) |- _ => inversion H; subst; clear H
       | E : ?t = _, H : ?t = _ |- _ => rewrite E in H
       end; try reflexivity; try discriminate ]).
Qed.

(** C7: [POST /ask] answers 200 with the text when the pipeline succeeds,
    and 500 with a detail string whenever [run_perplexity] raises, which it
    does as soon as the launch, the navigation, the submission, the
    extraction or the closing fails: no other status is sent. *)
Theorem ask_responses env request (s : sys W) :
  match run_perplexity B str_HTTPException env
          (prompt request) (use_research_mode request) s with
  | (Val r, s') =>
      POST_ask B str_HTTPException env request s
        = ({| status := 200; content := response_body r |}, s')
  | (Exn e, s') =>
      POST_ask B str_HTTPException env request s
        = ({| status := 500;
              content := detail_body (str_of str_HTTPException e) |}, s')
  end
  /\
  (forall r s',
     POST_ask B str_HTTPException env request s
       = ({| status := 200; content := response_body r |}, s') <->
     exists s1 s2 s3 s4,
       driver (Driver (getenv env "./chrome-debug-4")) s = (Val tt, s1) /\
       driver (uc_open_with_reconnect "https://perplexity.ai" 6) s1
         = (Val tt, s2) /\
       inputFieldCheck B (prompt request) (use_research_mode request)
         (slept 10000 s2) = (Val tt, s3) /\
       getResult B s3 = (Val r, s4) /\
       driver quit s4 = (Val tt, s')).
Proof.
  assert (Hpost :
    match run_perplexity B str_HTTPException env
            (prompt request) (use_research_mode request) s with
    | (Val r, s') =>
        POST_ask B str_HTTPException env request s
          = ({| status := 200; content := response_body r |}, s')
    | (Exn e, s') =>
        POST_ask B str_HTTPException env request s
          = ({| status := 500;
                content := detail_body (str_of str_HTTPException e) |}, s')
    end).
  { unfold POST_ask, ask_perplexity, try_except, bind, raise, ret.
    destruct (run_perplexity B str_HTTPException env (prompt request)
                (use_research_mode request) s) as [[r|e] s']; reflexivity. }
  split; [exact Hpost|].
  intros r s'. rewrite <- run_perplexity_success.
  destruct (run_perplexity B str_HTTPException env (prompt request)
              (use_research_mode request) s) as [[r0|e] s0];
    rewrite Hpost; split; intros H; inversion H; subst; reflexivity.
Qed.

(** *** What the detector accepts, and what it does meanwhile *)

(** A [True] of the loop is the verdict of its last round, on a text of at
    least 80% of the prompt. *)
Lemma wait_loop_accepts n e max_wait start st (s s' : sys W) :
  wait_loop B n e max_wait start st s = (Val true, s') ->
  exists s0 current,
    sample B s0 = (Val current, s') /\ 4 * len e <= 5 * len current.
Proof.
  revert st s. induction n as [|n IH]; intros st s H.
  - discriminate.
  - rewrite wait_loop_S in H.
    destruct (clock s - start <? max_wait); [|discriminate].
    destruct (poll_cases e st s) as (s1 & _ & [[P _] | (cur & Hs & P)]);
      rewrite P in H.
    + eapply IH; exact H.
    + destruct (judge e cur (clock s1) st) as [st'|v] eqn:J.
      * eapply IH; exact H.
      * inversion H; subst. exists s, cur. split; [assumption|].
        judge_cases J; try discriminate; lia.
Qed.

(** X1: the detector never raises; when it returns [True] the text it has
    just read is at least 80% of the prompt long, whichever rule accepted
    it, and when it returns [False] its ceiling has passed. *)
Theorem accepted_text_long_enough e max_wait (s : sys W) :
  match wait_for_typing_completion B e max_wait s with
  | (Val true, s') =>
      exists s0 current,
        sample B s0 = (Val current, s') /\ 4 * len e <= 5 * len current
  | (Val false, s') => max_wait <= clock s' - clock s
  | (Exn _, _) => False
  end.
Proof.
  destruct (wait_total e max_wait s) as (b & s' & E). rewrite E.
  destruct b.
  - unfold wait_for_typing_completion, bind, time_time in E.
    eapply wait_loop_accepts; exact E.
  - eapply wait_false_at_ceiling; exact E.
Qed.

Lemma tally_app f evs evs' :
  tally f (evs ++ evs') = (tally f evs + tally f evs')%nat.
Proof. unfold tally. now rewrite filter_app, length_app. Qed.

(** Split on what a read of the field returned. *)
Ltac either_text :=
  match goal with
  | |- context [match ?x with Some _ => _ | None => _ end] =>
      is_var x; destruct x as [[|? ?]|]
  end.

(** A sample is one lookup of the field, and no pause. *)
Lemma sample_trace (s : sys W) :
  exists evs,
    trace (snd (sample B s)) = trace s ++ evs /\
    tally (is_lookup "div[contenteditable='true']") evs = 1%nat /\
    tally (is_pause 200) evs = 0%nat.
Proof.
  unfold sample, safe_find_input, read_text, bind, ret.
  repeat first [either_way | either_text];
    (eexists; split; [collect_trace | split; reflexivity]).
Qed.

Lemma poll_trace e st (s : sys W) :
  exists evs,
    trace (snd (poll B e st s)) = trace s ++ evs /\
    tally (is_lookup "div[contenteditable='true']") evs = 1%nat /\
    (tally (is_pause 200) evs <= 1)%nat.
Proof.
  destruct (sample_trace s) as (evs & Ht & Hl & Hp).
  destruct (poll_cases e st s) as (s1 & _ & [[P (x & Hs)] | (cur & Hs & P)]);
    rewrite P; rewrite Hs in Ht; cbn [snd] in Ht.
  - exists (evs ++ [Slept 200]). cbn [snd slept trace].
    rewrite Ht, <- app_assoc, !tally_app, Hl, Hp.
    split; [reflexivity | split; [reflexivity | apply Nat.le_refl]].
  - destruct (judge e cur (clock s1) st) as [st'|v].
    + exists (evs ++ [Slept 200]). cbn [snd slept trace].
      rewrite Ht, <- app_assoc, !tally_app, Hl, Hp.
      split; [reflexivity | split; [reflexivity | apply Nat.le_refl]].
    + exists evs. cbn [snd]. rewrite Hl, Hp.
      split; [assumption | split; [reflexivity | apply Nat.le_0_l]].
Qed.

(** With the clock [200 * n] or less short of the ceiling the loop samples
    at most [n] times more, whatever rounds it is given. *)
Lemma wait_loop_samples fuel e max_wait start :
  forall n st (s : sys W),
    max_wait - (clock s - start) <= 200 * Z.of_nat n ->
    exists evs,
      trace (snd (wait_loop B fuel e max_wait start st s)) = trace s ++ evs /\
      (tally (is_lookup "div[contenteditable='true']") evs <= n)%nat /\
      (tally (is_pause 200) evs
         <= tally (is_lookup "div[contenteditable='true']") evs)%nat.
Proof.
  induction fuel as [|fuel IH]; intros n st s Hn.
  - exists []. cbn [wait_loop ret snd]. rewrite app_nil_r.
    split; [reflexivity | split; apply Nat.le_0_l].
  - rewrite wait_loop_S. destruct (clock s - start <? max_wait) eqn:E.
    + apply Z.ltb_lt in E. destruct n as [|n]; [lia|].
      destruct (poll_trace e st s) as (evs & Ht & Hl & Hp).
      destruct (poll B e st s) as [[[st'|v]|x] s1] eqn:P; cbn [snd] in Ht |- *.
      * apply poll_continues in P.
        destruct (IH n st' s1) as (evs' & Ht' & Hl' & Hp'); [lia|].
        exists (evs ++ evs'). rewrite Ht', Ht, <- app_assoc, !tally_app, Hl.
        split; [reflexivity | split; lia].
      * exists evs. rewrite Hl. split; [assumption | split; lia].
      * exists evs. rewrite Hl. split; [assumption | split; lia].
    + exists []. cbn [snd]. rewrite app_nil_r.
      split; [reflexivity | split; apply Nat.le_0_l].
Qed.

(** Frames whose events are checked by [reflexivity] as well. *)
Ltac frame_by :=
  repeat first
    [ simple apply emits_ret
    | simple apply emits_raise
    | simple apply emits_time
    | simple apply emits_sleep; first [exact I | reflexivity]
    | match goal with
      | |- emits ?P (perform _ ?c) =>
          refine (@emits_perform P c _); intros ?;
          first [exact I | reflexivity]
      end
    | simple apply emits_bind; [|intros ?]
    | simple apply emits_try_except; [|intros ?]
    | simple apply emits_catch
    | solve [auto 2 with frame nocore]
    | match goal with
      | |- emits _ (if ?b then _ else _) => destruct b
      | |- emits _ (match ?x with _ => _ end) => destruct x
      end ].

Lemma watching_wait_loop n e max_wait start :
  forall st, emits watching (wait_loop B n e max_wait start st).
Proof.
  induction n as [|n IH]; intros st; cbn [wait_loop];
    unfold poll, count_stable, check_stall, sample, safe_find_input, read_text;
    frame_by.
Qed.

(** X2: while it waits, the detector only looks the input field up, reads
    it and pauses 200ms; it makes at most one lookup for every 200ms of its
    ceiling, rounded up, and pauses at most once per lookup. *)
Theorem detector_only_watches e max_wait (s : sys W) :
  exists evs,
    trace (snd (wait_for_typing_completion B e max_wait s)) = trace s ++ evs /\
    Forall watching evs /\
    (tally (is_lookup "div[contenteditable='true']") evs
       <= Z.to_nat ((max_wait + 199) / 200))%nat /\
    (tally (is_pause 200) evs
       <= tally (is_lookup "div[contenteditable='true']") evs)%nat.
Proof.
  unfold wait_for_typing_completion, bind, time_time.
  destruct (watching_wait_loop (polls max_wait) e max_wait (clock s)
              (Progress [] 0 (clock s)) s) as (evs & Ht & Hw).
  destruct (@wait_loop_samples (polls max_wait) e max_wait (clock s)
              (Z.to_nat ((max_wait + 199) / 200)) (Progress [] 0 (clock s)) s)
    as (evs' & Ht' & Hl & Hp).
  { pose proof (Z.div_mod (max_wait + 199) 200 ltac:(lia)) as D.
    pose proof (Z.mod_pos_bound (max_wait + 199) 200 ltac:(lia)) as R.
    destruct (Z.le_gt_cases 0 ((max_wait + 199) / 200)).
    - rewrite Z2Nat.id by assumption. lia.
    - lia. }
  rewrite Ht in Ht'. apply app_inv_head in Ht'. subst evs'.
  exists evs. repeat split; assumption.
Qed.

(** *** Research mode, once more *)

Lemma paused_app evs evs' : paused (evs ++ evs') = paused evs + paused evs'.
Proof.
  induction evs as [|ev evs IH]; [reflexivity|].
  destruct ev; simpl; rewrite IH; lia.
Qed.

(** The lookup of the toggle never raises and clicks nothing; it makes at
    most three lookups and two pauses of one second, and the toggle it
    returns has just been seen displayed. *)
Lemma research_lookup_cases (s : sys W) :
  match research_lookup B [0; 1; 2] 3 None s with
  | (Val (Some (Some b)), s1) =>
      exists s0, driver (is_displayed b) s0 = (Val true, s1)
  | (Val _, _) => True
  | (Exn _, _) => False
  end
  /\
  exists evs,
    trace (snd (research_lookup B [0; 1; 2] 3 None s)) = trace s ++ evs /\
    existsb went_through evs = false /\
    (tally (is_lookup "[data-testid='search-mode-research']") evs <= 3)%nat /\
    paused evs <= 2000.
Proof.
  cbn [research_lookup]. unfold research_attempt, bind, catch, sleep, ret.
  decide_tests.
  repeat (first [either_way | either_shown]; decide_tests);
    (split;
     [ cbn [fst snd]; first [exact I | eexists; eassumption]
     | eexists; split; [collect_trace|];
       vm_compute; repeat split; intros; try discriminate; try lia ]).
Qed.

(** X4: the toggle is clicked only when the lookup ended on a visibility
    check that returned [True] for it, and in the state that check left;
    the selection returns [True] exactly when the native click or, after
    it raised, the scripted click went through.  All in all it makes at
    most three lookups and pauses at most 2.5s. *)
Theorem research_mode_selection (s : sys W) :
  match research_lookup B [0; 1; 2] 3 None s with
  | (Val (Some (Some b)), s1) =>
      (exists s0, driver (is_displayed b) s0 = (Val true, s1)) /\
      select_research_mode B s =
        match driver (click b) s1 with
        | (Val _, s2) => (Val true, slept 500 s2)
        | (Exn _, s2) =>
            match driver (script_click b) s2 with
            | (Val _, s3) => (Val true, slept 500 s3)
            | (Exn _, s3) => (Val false, s3)
            end
        end
  | (Val _, s1) => select_research_mode B s = (Val false, s1)
  | (Exn _, _) => False
  end
  /\
  exists evs,
    trace (snd (select_research_mode B s)) = trace s ++ evs /\
    fst (select_research_mode B s) = Val (existsb went_through evs) /\
    (tally (is_lookup "[data-testid='search-mode-research']") evs <= 3)%nat /\
    paused evs <= 2500.
Proof.
  destruct (research_lookup_cases s) as (Hshown & evs & Ht & Hno & Hl & Hp).
  assert (Hsel : select_research_mode B s =
    match research_lookup B [0; 1; 2] 3 None s with
    | (Val (Some (Some b)), s1) =>
        match driver (click b) s1 with
        | (Val _, s2) => (Val true, slept 500 s2)
        | (Exn _, s2) =>
            match driver (script_click b) s2 with
            | (Val _, s3) => (Val true, slept 500 s3)
            | (Exn _, s3) => (Val false, s3)
            end
        end
    | (_, s1) => (Val false, s1)
    end).
  { unfold select_research_mode, try_except, bind, sleep, ret, slept.
    destruct (research_lookup B [0; 1; 2] 3 None s) as [[[[b|]|]|x] s1];
      try reflexivity.
    destruct (driver (click b) s1) as [[?|?] s2]; [reflexivity|].
    destruct (driver (script_click b) s2) as [[?|?] s3]; reflexivity. }
  rewrite Hsel. clear Hsel.
  destruct (research_lookup B [0; 1; 2] 3 None s) as [[[[b|]|]|x] s1];
    cbn [snd] in Ht; try contradiction.
  - either_way; [|either_way];
      (split; [split; [assumption | reflexivity]|]);
      eexists; cbn [fst snd trace slept];
      repeat match goal with
      | H : trace ?x = _ |- context [trace ?x] => rewrite H; clear H
      end;
      rewrite <- ?app_assoc;
      (split; [reflexivity|]);
      rewrite existsb_app, tally_app, paused_app, Hno;
      (split; [reflexivity|]);
      (split; [vm_compute tally at 2; lia | vm_compute paused at 2; lia]).
  - split; [reflexivity|]. exists evs. cbn [fst snd]. rewrite Hno.
    repeat split; try assumption; lia.
  - split; [reflexivity|]. exists evs. cbn [fst snd]. rewrite Hno.
    repeat split; try assumption; lia.
Qed.

(** *** The order of the typing *)

Lemma bind_bind {A C D} (m : M W A) (f : A -> M W C) (g : C -> M W D) s :
  bind (bind m f) g s = bind m (fun a => bind (f a) g) s.
Proof. unfold bind. destruct (m s) as [[a|x] s1]; reflexivity. Qed.

Lemma bind_sleep {C} ms (k : unit -> M W C) s :
  bind (sleep ms) k s = k tt (slept ms s).
Proof. reflexivity. Qed.

(** X5: the operation sends no key before it has found the input field,
    clicked it, paused half a second, found it again and cleared it, all
    of these having gone through: a run in which any key is sent starts
    with these five events. *)
Theorem typed_after_clearing contentToType mode (s : sys W) :
  exists evs,
    trace (snd (inputFieldCheck B contentToType mode s)) = trace s ++ evs /\
    (keys_sent evs <> [] ->
     exists el el' rest,
       evs = Called (find_element "div[contenteditable='true']") true
             :: Called (click el) true
             :: Slept 500
             :: Called (find_element "div[contenteditable='true']") true
             :: Called (clear el') true
             :: rest).
Proof.
  unfold inputFieldCheck. rewrite try_reraise.
  unfold enter_prompt, safe_find_input. rewrite bind_bind.
  destruct (perform_cases (find_element "div[contenteditable='true']") s)
    as [(el & s1 & E1 & _ & Ht1) | (msg & s1 & E1 & _ & Ht1)].
  2:{ erewrite bind_exn by exact E1. cbn [snd].
      eexists. split; [exact Ht1|]. intros H. exfalso. apply H. reflexivity. }
  erewrite bind_val by exact E1. rewrite bind_bind.
  destruct (perform_cases (click el) s1)
    as [(a2 & s2 & E2 & _ & Ht2) | (msg & s2 & E2 & _ & Ht2)].
  2:{ erewrite bind_exn by exact E2. cbn [snd].
      eexists. split; [rewrite Ht2, Ht1, <- app_assoc; reflexivity|].
      intros H. exfalso. apply H. reflexivity. }
  erewrite bind_val by exact E2. rewrite bind_bind, bind_sleep, bind_bind.
  destruct (perform_cases (find_element "div[contenteditable='true']")
              (slept 500 s2))
    as [(el' & s3 & E3 & _ & Ht3) | (msg & s3 & E3 & _ & Ht3)].
  2:{ erewrite bind_exn by exact E3. cbn [snd].
      eexists. split; [rewrite Ht3; cbn [slept trace];
                       rewrite Ht2, Ht1, <- !app_assoc; reflexivity|].
      intros H. exfalso. apply H. reflexivity. }
  erewrite bind_val by exact E3. rewrite bind_bind.
  destruct (perform_cases (clear el') s3)
    as [(a4 & s4 & E4 & _ & Ht4) | (msg & s4 & E4 & _ & Ht4)].
  2:{ erewrite bind_exn by exact E4. cbn [snd].
      eexists. split; [rewrite Ht4, Ht3; cbn [slept trace];
                       rewrite Ht2, Ht1, <- !app_assoc; reflexivity|].
      intros H. exfalso. apply H. reflexivity. }
  erewrite bind_val by exact E4.
  match goal with
  | |- context [snd (?m s4)] =>
      assert (Hrest : emits on_page m)
        by (unfold final_text_check, mode_and_submit, dispatch_submit,
              keyboard_submit, enter_submit, type_prompt; frame);
      destruct (Hrest s4) as (rest & Hr & _)
  end.
  exists ([Called (find_element "div[contenteditable='true']") true;
           Called (click el) true; Slept 500;
           Called (find_element "div[contenteditable='true']") true;
           Called (clear el') true] ++ rest).
  split.
  - rewrite Hr, Ht4, Ht3. cbn [slept trace].
    rewrite Ht2, Ht1, <- !app_assoc. reflexivity.
  - intros _. exists el, el', rest. reflexivity.
Qed.

(** *** The default mode *)

Lemma off_toggle_type_parts el n parts :
  forall i, emits off_toggle (type_parts B el n i parts).
Proof.
  induction parts as [|part rest IH]; intros i; cbn [type_parts]; frame_by.
Qed.

Lemma off_toggle_wait_loop n e max_wait start :
  forall st, emits off_toggle (wait_loop B n e max_wait start st).
Proof.
  induction n as [|n IH]; intros st; cbn [wait_loop];
    unfold poll, count_stable, check_stall, sample, safe_find_input, read_text;
    frame_by.
Qed.

Lemma off_toggle_no_lookup evs :
  Forall off_toggle evs ->
  tally (is_lookup "[data-testid='search-mode-research']") evs = 0%nat.
Proof.
  induction 1 as [|ev evs Hev _ IH]; [reflexivity|].
  unfold tally in *. cbn [filter].
  destruct ev as [[] ok|]; cbn [is_lookup off_toggle] in *;
    try assumption.
  rewrite Hev. assumption.
Qed.

(** X6: with [use_research_mode] false the operation never looks the mode
    toggle up and never clicks through a script. *)
Theorem default_mode_leaves_toggle contentToType (s : sys W) :
  exists evs,
    trace (snd (inputFieldCheck B contentToType false s)) = trace s ++ evs /\
    Forall off_toggle evs /\
    tally (is_lookup "[data-testid='search-mode-research']") evs = 0%nat.
Proof.
  assert (H : emits off_toggle (inputFieldCheck B contentToType false)).
  { pose proof off_toggle_type_parts as Htype.
    pose proof off_toggle_wait_loop as Hwait.
    unfold inputFieldCheck, enter_prompt, final_text_check, mode_and_submit,
      dispatch_submit, keyboard_submit, enter_submit, type_prompt,
      wait_for_typing_completion, safe_find_input, read_text.
    cbn [find_submit]. unfold submit_attempt, aria_fallback.
    frame_by. }
  destruct (H s) as (evs & Ht & Hoff).
  exists evs. split; [assumption|]. split; [assumption|].
  now apply off_toggle_no_lookup.
Qed.

(** *** The clipboard *)

(** The clipboard is read at most three times, with at most three pauses
    of one second; a text returned is the one the last read gave, and no
    text is returned only after three reads. *)
Lemma read_clipboard_cases (s : sys W) :
  exists evs,
    trace (snd (read_clipboard B [0; 1; 2] None s)) = trace s ++ evs /\
    (1 <= tally is_read evs <= 3)%nat /\
    paused evs <= 3000 /\
    match read_clipboard B [0; 1; 2] None s with
    | (Val (Some (c :: t)), s') =>
        exists s0, driver clipboard_readText s0 = (Val (Some (c :: t)), s')
    | (Val _, _) => tally is_read evs = 3%nat
    | (Exn _, _) => False
    end.
Proof.
  cbn [read_clipboard]. unfold bind, catch, sleep, ret. decide_tests.
  repeat (first [either_way | either_text]; decide_tests);
    (eexists; split; [collect_trace|]);
    (split; [vm_compute; lia|]);
    (split; [vm_compute; discriminate|]);
    first [reflexivity | eexists; eassumption].
Qed.

(** X7: a text [getResult] returns is the non-empty text a read of the
    clipboard has just given, cut at the marker.  It fails in two ways
    only: with the exception of the stage that locates and clicks the copy
    control, or, after three reads that gave no text, with the message
    about the clipboard. *)
Theorem getResult_outcomes (s : sys W) :
  match getResult B s with
  | (Val r, s') =>
      exists s0 clipboard_content,
        driver clipboard_readText s0 = (Val (Some clipboard_content), s') /\
        clipboard_content <> [] /\
        r = cleaned_citation_string clipboard_content
  | (Exn e, s') =>
      (exists msg,
         driver locate_and_copy s = (Exn (Exception msg), s') /\
         e = Exception msg)
      \/
      (e = Exception "Failed to read clipboard content after multiple attempts"
       /\
       exists s1 evs,
         driver locate_and_copy s = (Val tt, s1) /\
         trace s' = trace s1 ++ Slept 3000 :: evs /\
         tally is_read evs = 3%nat)
  end.
Proof.
  unfold getResult. rewrite try_reraise.
  destruct (perform_cases locate_and_copy s)
    as [([] & s1 & E & _ & Ht) | (msg & s1 & E & _ & Ht)].
  - erewrite bind_val by exact E. rewrite bind_sleep.
    destruct (read_clipboard_cases (slept 3000 s1))
      as (evs & Hr & _ & _ & Hcase).
    unfold bind at 1.
    destruct (read_clipboard B [0; 1; 2] None (slept 3000 s1))
      as [[[[|c t]|]|x] s2]; cbn [snd slept trace] in Hr;
      rewrite <- app_assoc in Hr; try contradiction.
    + right. split; [reflexivity|]. exists s1, evs. auto.
    + destruct Hcase as [s0 Hread]. exists s0, (c :: t).
      split; [assumption|]. split; [discriminate | reflexivity].
    + right. split; [reflexivity|]. exists s1, evs. auto.
  - erewrite bind_exn by exact E. left. exists msg. auto.
Qed.

(** *** The marker, once more *)

Lemma hd_split_from_cut sep cur s :
  sep <> [] ->
  (forall a b, cur = a ++ b -> b <> [] -> starts_with sep (b ++ s) = false) ->
  ~ occurs sep (hd [] (split_from sep 0 cur s)) /\
  exists p r,
    s = p ++ r /\ hd [] (split_from sep 0 cur s) = cur ++ p /\
    (r = [] \/ starts_with sep r = true).
Proof.
  intros Hsep. revert cur. induction s as [|c s IH]; intros cur Hcur.
  - simpl. split.
    + intros (a & b & H).
      assert (Hs : starts_with sep ((sep ++ b) ++ []) = true)
        by (apply starts_with_app; exists (b ++ []); now rewrite app_assoc).
      rewrite (Hcur a (sep ++ b) H) in Hs; [discriminate|].
      destruct sep; [congruence | discriminate].
    + exists [], [].
      split; [reflexivity | split; [now rewrite app_nil_r | auto]].
  - simpl. destruct (starts_with sep (c :: s)) eqn:E.
    + simpl. split.
      * intros (a & b & H).
        assert (Hs : starts_with sep ((sep ++ b) ++ c :: s) = true)
          by (apply starts_with_app; exists (b ++ c :: s);
              now rewrite app_assoc).
        rewrite (Hcur a (sep ++ b) H) in Hs; [discriminate|].
        destruct sep; [congruence | discriminate].
      * exists [], (c :: s).
        split; [reflexivity | split; [now rewrite app_nil_r | auto]].
    + destruct (IH (cur ++ [c])) as (Hfree & p & r & Hs & Hhd & Hr).
      * intros a b Hab Hb.
        destruct (exists_last Hb) as (b0 & c' & ->).
        rewrite app_assoc in Hab. apply app_inj_tail in Hab.
        destruct Hab as [Hab ->]. rewrite <- app_assoc. simpl.
        destruct b0 as [|x b0]; [exact E|].
        apply (Hcur a (x :: b0) Hab). discriminate.
      * split; [assumption|]. exists (c :: p), r.
        rewrite Hhd, <- app_assoc, Hs.
        split; [reflexivity | split; [reflexivity | assumption]].
Qed.

(** X8: whatever the clipboard text, the cleaned text is a prefix of it in
    which the marker does not occur, and what is cut off, if anything,
    starts with the marker; a text that starts with the marker is cleaned
    to the empty text. *)
Theorem cleaned_is_marker_free_prefix (clipboard_content : text) :
  ~ occurs (str "[1]") (cleaned_citation_string clipboard_content)
  /\
  (exists rest,
     clipboard_content = cleaned_citation_string clipboard_content ++ rest /\
     (rest = [] \/ starts_with (str "[1]") rest = true))
  /\
  (starts_with (str "[1]") clipboard_content = true ->
   cleaned_citation_string clipboard_content = []).
Proof.
  destruct clipboard_content as [|c t].
  - split; [|split].
    + intros (a & b & H). destruct a; discriminate H.
    + exists []. auto.
    + reflexivity.
  - destruct (@hd_split_from_cut (str "[1]") [] (c :: t))
      as (Hfree & p & r & Hs & Hhd & Hr).
    + discriminate.
    + intros a b H Hb. destruct a; [|discriminate H].
      simpl in H. congruence.
    + unfold cleaned_citation_string, split.
      split; [assumption|]. split.
      * exists r. rewrite Hhd. auto.
      * intros Hstart. cbn [split_from]. rewrite Hstart. reflexivity.
Qed.

(** *** What a failure looks like *)

Lemma plain_ret {A} (a : A) : plain (ret a : M W A).
Proof. intros s e s' H. discriminate H. Qed.

Lemma plain_raise {A} msg : plain (raise (Exception msg) : M W A).
Proof. intros s e s' H. inversion H. eauto. Qed.

Lemma plain_time : plain (time_time : M W Z).
Proof. intros s e s' H. discriminate H. Qed.

Lemma plain_sleep ms : plain (sleep ms : M W unit).
Proof. intros s e s' H. discriminate H. Qed.

Lemma plain_perform c : plain (driver c).
Proof.
  intros s e s' H.
  destruct (perform_cases c s) as [(a & s1 & E & _) | (msg & s1 & E & _)];
    rewrite E in H; inversion H; eauto.
Qed.

Lemma plain_bind {A C} (m : M W A) (k : A -> M W C) :
  plain m -> (forall a, plain (k a)) -> plain (bind m k).
Proof.
  intros Hm Hk s e s' H. unfold bind in H.
  destruct (m s) as [[a|x] s1] eqn:E.
  - eapply Hk; exact H.
  - inversion H; subst. eapply Hm; exact E.
Qed.

Lemma plain_try_except {A} (m : M W A) handler :
  plain m -> (forall msg, plain (handler (Exception msg))) ->
  plain (try_except m handler).
Proof.
  intros Hm Hh s e s' H. unfold try_except in H.
  destruct (m s) as [[a|x] s1] eqn:E; [discriminate H|].
  destruct (Hm _ _ _ E) as [msg ->]. eapply Hh; exact H.
Qed.

Lemma plain_catch {A} (m : M W A) : plain (catch m).
Proof.
  intros s e s' H. unfold catch in H.
  destruct (m s) as [[a|x] s1]; discriminate H.
Qed.

Ltac plainly :=
  repeat first
    [ simple apply plain_ret
    | simple apply plain_raise
    | simple apply plain_time
    | simple apply plain_sleep
    | match goal with
      | |- plain (perform _ ?c) => exact (plain_perform c)
      end
    | simple apply plain_bind; [|intros ?]
    | simple apply plain_try_except; [|intros ?; cbv beta]
    | simple apply plain_catch
    | solve [auto 2 with nocore]
    | match goal with
      | |- plain (if ?b then _ else _) => destruct b
      | |- plain (match ?x with _ => _ end) => destruct x
      end ].

Lemma plain_type_parts el n parts :
  forall i, plain (type_parts B el n i parts).
Proof.
  induction parts as [|part rest IH]; intros i; cbn [type_parts]; plainly.
Qed.

Lemma plain_read_clipboard attempts :
  forall c, plain (read_clipboard B attempts c).
Proof.
  induction attempts as [|attempt rest IH]; intros c;
    cbn [read_clipboard]; plainly.
Qed.

(** The submission and the extraction raise nothing but plain
    exceptions. *)
Lemma plain_stages contentToType mode :
  plain (inputFieldCheck B contentToType mode;;
         aiOutput <- getResult B;; ret aiOutput).
Proof.
  assert (Hwait : forall e max_wait,
            plain (wait_for_typing_completion B e max_wait)).
  { intros e max_wait s x s' H.
    destruct (wait_total e max_wait s) as (b & s1 & E).
    rewrite E in H. discriminate H. }
  assert (Hsel : plain (select_research_mode B)).
  { intros s x s' H.
    destruct (select_research_mode_total s) as (b & s1 & E).
    rewrite E in H. discriminate H. }
  assert (Hfind : plain (find_submit B 3 0 3 None)).
  { intros s x s' H.
    destruct (find_submit_trace s) as (_ & _ & (b & Hb) & _).
    rewrite H in Hb. discriminate Hb. }
  pose proof plain_type_parts as Htype.
  pose proof plain_read_clipboard as Hclip.
  unfold inputFieldCheck, enter_prompt, final_text_check, mode_and_submit,
    dispatch_submit, keyboard_submit, enter_submit, type_prompt, getResult,
    safe_find_input, read_text.
  plainly.
Qed.

(** What [run_perplexity] raises: the 500 it builds from the message of the
    exception a stage raised, or the exception of [quit()]. *)
Lemma run_perplexity_raises env prompt mode (s s' : sys W) e :
  run_perplexity B str_HTTPException env prompt mode s = (Exn e, s') ->
  (exists msg,
     e = HTTPException 500 ("Error processing request: " ++ msg)%string)
  \/
  (exists msg s4,
     driver quit s4 = (Exn (Exception msg), s') /\ e = Exception msg).
Proof.
  unfold run_perplexity. cbv zeta. unfold bind at 1, catch.
  destruct (perform_cases (Driver (getenv env "./chrome-debug-4")) s)
    as [(a & s1 & E & _) | (msg & s1 & E & _)]; rewrite E.
  - unfold try_finally, try_except at 1.
    match goal with
    | |- context [bind ?m ?k s1] =>
        pose proof (@plain_bind _ _ m k (plain_perform _)) as Hplain;
        destruct (bind m k s1) as [[r|x] s2] eqn:Em
    end.
    + destruct (perform_cases quit s2)
        as [(a' & s3 & E' & _) | (msg & s3 & E' & _)]; rewrite E';
        intros H; [discriminate H|].
      injection H as <- <-. right. exists msg, s2. auto.
    + destruct (Hplain
                  ltac:(intros ?; apply plain_bind;
                        [apply plain_sleep | intros ?; apply plain_stages])
                  _ _ _ Em) as [msg ->].
      unfold raise. cbn [str_of].
      destruct (perform_cases quit s2)
        as [(a' & s3 & E' & _) | (msg' & s3 & E' & _)]; rewrite E';
        intros H; injection H as <- <-.
      * left. exists msg. reflexivity.
      * right. exists msg', s2. auto.
  - unfold raise. cbn [str_of]. intros H. injection H as <- <-.
    left. exists msg. reflexivity.
Qed.

(** X9: [POST /ask] sends one of three things: 200 with the text; 500 with,
    as detail, the string of the 500 that [run_perplexity] built from the
    message of the exception a stage raised, prefix included; or, when
    [quit()] raised, 500 with the message of that exception, whatever the
    stages before it had produced. *)
Theorem failure_detail env request (s : sys W) :
  (exists r,
     fst (POST_ask B str_HTTPException env request s)
       = {| status := 200; content := response_body r |})
  \/
  (exists msg,
     fst (POST_ask B str_HTTPException env request s)
       = {| status := 500;
            content := detail_body
              (str_HTTPException 500
                 ("Error processing request: " ++ msg)%string) |})
  \/
  (exists msg s4 s',
     driver quit s4 = (Exn (Exception msg), s') /\
     POST_ask B str_HTTPException env request s
       = ({| status := 500; content := detail_body msg |}, s')).
Proof.
  pose proof (@run_perplexity_raises env (prompt request)
                (use_research_mode request) s) as Hraises.
  unfold POST_ask, ask_perplexity, try_except, bind, raise, ret.
  destruct (run_perplexity B str_HTTPException env (prompt request)
              (use_research_mode request) s) as [[r|e] s'].
  - left. exists r. reflexivity.
  - right. destruct (Hraises s' e eq_refl) as [[msg ->] | (msg & s4 & Hq & ->)].
    + left. exists msg. reflexivity.
    + right. exists msg, s4, s'. split; [assumption | reflexivity].
Qed.

End Properties.

(** ** The properties on the pages above *)

(** Six samples of a field showing the whole prompt have left the counter
    at 5 (the first one set [last_text]); the seventh is the sixth in a row
    to leave the text unchanged, and the detector returns. *)
Lemma stability_rule_witness :
  polled (staged (scene_showing (str "hello"))) (str "hello")
    (Progress [] 0 0) (boot tt)
    (seen (staged (scene_showing (str "hello"))) 6 (str "hello")
       (Progress [] 0 0) (boot tt) [])
    (Progress (str "hello") 5 0)
    (snd (repeat_poll (staged (scene_showing (str "hello"))) 6 (str "hello")
            (Progress [] 0 0) (boot tt)))
  /\
  fst (poll (staged (scene_showing (str "hello"))) (str "hello")
         (Progress (str "hello") 5 0)
         (snd (repeat_poll (staged (scene_showing (str "hello"))) 6
                 (str "hello") (Progress [] 0 0) (boot tt))))
    = Val (inr Stable).
Proof.
  assert (Hp : polled (staged (scene_showing (str "hello"))) (str "hello")
    (Progress [] 0 0) (boot tt)
    (seen (staged (scene_showing (str "hello"))) 6 (str "hello")
       (Progress [] 0 0) (boot tt) [])
    (Progress (str "hello") 5 0)
    (snd (repeat_poll (staged (scene_showing (str "hello"))) 6 (str "hello")
            (Progress [] 0 0) (boot tt)))).
  { apply repeat_poll_polled; [apply polled_start|].
    vm_compute. reflexivity. }
  split; [exact Hp|].
  assert (Hs : sample (staged (scene_showing (str "hello")))
                 (snd (repeat_poll (staged (scene_showing (str "hello"))) 6
                         (str "hello") (Progress [] 0 0) (boot tt)))
               = (Val (str "hello"),
                  snd (sample (staged (scene_showing (str "hello")))
                         (snd (repeat_poll
                                 (staged (scene_showing (str "hello"))) 6
                                 (str "hello") (Progress [] 0 0) (boot tt))))))
    by (vm_compute; reflexivity).
  apply (proj2 (proj1 (stability_rule Hp Hs))).
  split; vm_compute; [repeat constructor | discriminate].
Defined.

(** C1 as stated fails: the field of a page stays empty while the prompt is
    ["hello"].  The sixth sample is the sixth in a row to leave the text
    unchanged, and the text is under 95% of the prompt, but the counter is
    not reset: it stands at 6 after that sample and at 7 after the next. *)
Lemma stable_empty_text_not_reset :
  fst (repeat_poll (staged (scene_showing [])) 6 (str "hello")
         (Progress [] 0 0) (boot tt))
    = Val (inl (Progress [] 6 0))
  /\
  fst (repeat_poll (staged (scene_showing [])) 7 (str "hello")
         (Progress [] 0 0) (boot tt))
    = Val (inl (Progress [] 7 0))
  /\
  seen (staged (scene_showing [])) 6 (str "hello") (Progress [] 0 0)
    (boot tt) [] = [[]; []; []; []; []; []]
  /\
  20 * len [] < 19 * len (str "hello").
Proof. repeat split. Qed.

Lemma staged_frozen sc :
  field_present sc = true -> strip (field_text sc) <> [] ->
  frozen_at (staged sc) (strip (field_text sc)).
Proof.
  intros Hpresent Hshown s. unfold sample, safe_find_input, read_text, bind.
  unfold perform. cbn [answer staged staged_answer String.eqb Ascii.eqb
    Bool.eqb outcome took]. rewrite Hpresent. cbn [outcome took].
  destruct (field_text sc) as [|c t] eqn:E; [contradiction Hshown; reflexivity|].
  cbn [outcome took ret]. eexists. split; [reflexivity|]. simpl. lia.
Qed.

(** A field frozen at 80 of the 100 characters of the prompt is accepted
    60.2s after the start; frozen at 79 it is not, and the detector gives
    up at the ceiling.  At a stalled sample the 80 characters are
    accepted.  A field that shows 50 characters for its first 100 reads
    and 80 from then on changes at the sample taken at 20s: that is the
    progress recorded from then on, and the 80 characters are accepted by
    the stall rule at the sample taken at 80.2s, the first more than 60s
    after the change, not at the one taken at 60.2s. *)
Lemma stall_rule_witness :
  (sample (staged (scene_showing eighty)) (Sys 61000 tt [])
     = (Val eighty, Sys 61000 tt
          [Called (find_element "div[contenteditable='true']") true;
           Called (get_attribute 1%nat "textContent") true]) /\
   60000 < 61000 - last_progress_time (Progress eighty 3 0) /\
   exists v,
     fst (poll (staged (scene_showing eighty)) hundred (Progress eighty 3 0)
            (Sys 61000 tt [])) = Val (inr v))
  /\
  (frozen_at (staged (scene_showing eighty)) eighty /\
   eighty <> [] /\
   4 * len hundred <= 5 * len eighty /\
   20 * len eighty < 19 * len hundred /\
   fst (wait_for_typing_completion (staged (scene_showing eighty)) hundred
          300000 (boot tt)) = Val true /\
   clock (snd (wait_for_typing_completion (staged (scene_showing eighty))
                 hundred 300000 (boot tt))) = 60200)
  /\
  (frozen_at (staged (scene_showing seventy_nine)) seventy_nine /\
   5 * len seventy_nine < 4 * len hundred /\
   fst (wait_for_typing_completion (staged (scene_showing seventy_nine))
          hundred 300000 (boot tt)) = Val false /\
   300000 <= clock (snd (wait_for_typing_completion
                           (staged (scene_showing seventy_nine))
                           hundred 300000 (boot tt))) - clock (boot tt))
  /\
  (timed (late 100 fifty eighty) hundred (Progress [] 0 0) (boot 0%nat)
     (seen_at (late 100 fifty eighty) (Z.to_nat 401) hundred
        (Progress [] 0 0) (boot 0%nat) [])
     (Progress eighty 0 20000)
     (snd (repeat_poll (late 100 fifty eighty) (Z.to_nat 401) hundred
             (Progress [] 0 0) (boot 0%nat))) /\
   recorded_progress hundred 0
     (seen_at (late 100 fifty eighty) (Z.to_nat 401) hundred
        (Progress [] 0 0) (boot 0%nat) []) = 20000 /\
   sample (late 100 fifty eighty)
     (snd (repeat_poll (late 100 fifty eighty) (Z.to_nat 401) hundred
             (Progress [] 0 0) (boot 0%nat)))
     = (Val eighty,
        snd (sample (late 100 fifty eighty)
               (snd (repeat_poll (late 100 fifty eighty) (Z.to_nat 401)
                       hundred (Progress [] 0 0) (boot 0%nat))))) /\
   clock (snd (sample (late 100 fifty eighty)
                 (snd (repeat_poll (late 100 fifty eighty) (Z.to_nat 401)
                         hundred (Progress [] 0 0) (boot 0%nat))))) = 80200 /\
   fst (poll (late 100 fifty eighty) hundred (Progress eighty 0 20000)
          (snd (repeat_poll (late 100 fifty eighty) (Z.to_nat 401) hundred
                  (Progress [] 0 0) (boot 0%nat))))
     = Val (inr Stalled) /\
   wait_for_typing_completion (late 100 fifty eighty) hundred 300000
     (boot 0%nat)
     = (Val true,
        snd (wait_for_typing_completion (late 100 fifty eighty) hundred
               300000 (boot 0%nat))) /\
   clock (snd (wait_for_typing_completion (late 100 fifty eighty) hundred
                 300000 (boot 0%nat))) = 80200 /\
   exists h st s' v,
     timed (late 100 fifty eighty) hundred (Progress [] 0 0) (boot 0%nat)
       h st s' /\
     poll (late 100 fifty eighty) hundred st s'
       = (Val (inr v),
          snd (wait_for_typing_completion (late 100 fifty eighty) hundred
                 300000 (boot 0%nat)))).
Proof.
  assert (F80 : frozen_at (staged (scene_showing eighty)) eighty)
    by (apply (@staged_frozen (scene_showing eighty)); [reflexivity | discriminate]).
  assert (F79 : frozen_at (staged (scene_showing seventy_nine)) seventy_nine)
    by (apply (@staged_frozen (scene_showing seventy_nine));
        [reflexivity | discriminate]).
  assert (N80 : eighty <> []) by discriminate.
  assert (H80 : 4 * len hundred <= 5 * len eighty) by (vm_compute; discriminate).
  assert (H95 : 20 * len eighty < 19 * len hundred) by reflexivity.
  assert (H79 : 5 * len seventy_nine < 4 * len hundred) by reflexivity.
  assert (Hs : sample (staged (scene_showing eighty)) (Sys 61000 tt [])
     = (Val eighty, Sys 61000 tt
          [Called (find_element "div[contenteditable='true']") true;
           Called (get_attribute 1%nat "textContent") true]))
    by reflexivity.
  assert (Hlate : 60000 < 61000 - last_progress_time (Progress eighty 3 0))
    by reflexivity.
  assert (Ht : timed (late 100 fifty eighty) hundred (Progress [] 0 0)
     (boot 0%nat)
     (seen_at (late 100 fifty eighty) (Z.to_nat 401) hundred
        (Progress [] 0 0) (boot 0%nat) [])
     (Progress eighty 0 20000)
     (snd (repeat_poll (late 100 fifty eighty) (Z.to_nat 401) hundred
             (Progress [] 0 0) (boot 0%nat)))).
  { apply repeat_poll_timed; [apply timed_start|]. vm_compute. reflexivity. }
  assert (Hs' : sample (late 100 fifty eighty)
     (snd (repeat_poll (late 100 fifty eighty) (Z.to_nat 401) hundred
             (Progress [] 0 0) (boot 0%nat)))
     = (Val eighty,
        snd (sample (late 100 fifty eighty)
               (snd (repeat_poll (late 100 fifty eighty) (Z.to_nat 401)
                       hundred (Progress [] 0 0) (boot 0%nat))))))
    by (vm_compute; reflexivity).
  assert (Hrun : wait_for_typing_completion (late 100 fifty eighty) hundred
     300000 (boot 0%nat)
     = (Val true,
        snd (wait_for_typing_completion (late 100 fifty eighty) hundred
               300000 (boot 0%nat)))) by (vm_compute; reflexivity).
  destruct (stall_rule (staged (scene_showing eighty)) hundred)
    as (Hround & Hfrozen & _).
  destruct (stall_rule (staged (scene_showing seventy_nine)) hundred)
    as (_ & _ & Hlow & _).
  destruct (stall_rule (late 100 fifty eighty) hundred)
    as (_ & _ & _ & Hrecorded & Halong & Hreturn).
  split; [|split; [|split]].
  - split; [exact Hs|]. split; [exact Hlate|].
    apply (proj1 (Hround (Progress eighty 3 0) _ _ _ Hs (or_introl eq_refl)
                    Hlate)).
    exact H80.
  - destruct (Hfrozen eighty F80 N80 H80 H95 (boot tt)) as [Hv Hc].
    repeat split; assumption.
  - destruct (Hlow seventy_nine F79 H79 (boot tt)) as [Hv Hc].
    repeat split; assumption.
  - split; [exact Ht|].
    split; [symmetry; exact (proj2 (Hrecorded _ _ _ _ _ Ht))|].
    split; [exact Hs'|]. split; [vm_compute; reflexivity|].
    split.
    + apply (proj2 (proj2 (Halong _ _ _ _ _ _ _ Ht Hs'))).
      split; [vm_compute; discriminate|].
      split; [left; vm_compute; reflexivity|].
      split; [vm_compute; reflexivity | vm_compute; discriminate].
    + split; [exact Hrun|]. split; [vm_compute; reflexivity|].
      exact (Hreturn _ _ _ Hrun).
Defined.

(** C2 as stated fails: the field shows ["ab"] and ["ba"] in turn while the
    prompt is ["ab"].  The length of the text is that of the prompt from the
    first sample on and never grows, for 300s; the text is never accepted,
    and the detector gives up at the ceiling. *)
Lemma changing_text_never_stalls :
  fst (wait_for_typing_completion (flicker (str "ab") (str "ba")) (str "ab")
         300000 (boot 0%nat)) = Val false
  /\
  clock (snd (wait_for_typing_completion (flicker (str "ab") (str "ba"))
                (str "ab") 300000 (boot 0%nat))) = 300000
  /\
  forallb (fun t => len t =? len (str "ab"))
    (seen (flicker (str "ab") (str "ba")) (Z.to_nat 1500) (str "ab")
       (Progress [] 0 0) (boot 0%nat) []) = true
  /\
  length (seen (flicker (str "ab") (str "ba")) (Z.to_nat 1500) (str "ab")
            (Progress [] 0 0) (boot 0%nat) []) = Z.to_nat 1500
  /\
  4 * len (str "ab") <= 5 * len (str "ab").
Proof.
  repeat split; try (vm_compute; reflexivity). vm_compute. discriminate.
Qed.

(** The field stays at ["he"], 40% of the prompt ["hello"]: the detector
    gives up at its ceiling, the last read sees 2 characters of 5, and the
    operation fails. *)
Lemma final_check_rule_witness :
  enter_prompt (staged (scene_showing (str "he"))) (str "hello") (boot tt)
    = (Val false,
       snd (enter_prompt (staged (scene_showing (str "he"))) (str "hello")
              (boot tt)))
  /\
  (current_input <- safe_find_input (staged (scene_showing (str "he")));;
   read_text (staged (scene_showing (str "he"))) current_input)
    (snd (enter_prompt (staged (scene_showing (str "he"))) (str "hello")
            (boot tt)))
    = (Val (str "he"),
       snd ((current_input <- safe_find_input
                                (staged (scene_showing (str "he")));;
             read_text (staged (scene_showing (str "he"))) current_input)
              (snd (enter_prompt (staged (scene_showing (str "he")))
                      (str "hello") (boot tt)))))
  /\
  fst (inputFieldCheck (staged (scene_showing (str "he"))) (str "hello")
         false (boot tt))
    = Exn (Exception "Cannot verify text completion after extended wait")
  /\
  300000 <= clock (snd (enter_prompt (staged (scene_showing (str "he")))
                          (str "hello") (boot tt))).
Proof.
  assert (H1 : enter_prompt (staged (scene_showing (str "he"))) (str "hello")
                 (boot tt)
    = (Val false,
       snd (enter_prompt (staged (scene_showing (str "he"))) (str "hello")
              (boot tt)))) by (vm_compute; reflexivity).
  assert (H2 : (current_input <- safe_find_input
                                   (staged (scene_showing (str "he")));;
   read_text (staged (scene_showing (str "he"))) current_input)
    (snd (enter_prompt (staged (scene_showing (str "he"))) (str "hello")
            (boot tt)))
    = (Val (str "he"),
       snd ((current_input <- safe_find_input
                                (staged (scene_showing (str "he")));;
             read_text (staged (scene_showing (str "he"))) current_input)
              (snd (enter_prompt (staged (scene_showing (str "he")))
                      (str "hello") (boot tt))))))
    by (vm_compute; reflexivity).
  split; [exact H1|]. split; [exact H2|]. split.
  - rewrite (proj2 (final_check_rule _ _ false _ H1 H2)). reflexivity.
  - vm_compute. discriminate.
Defined.

(** ["ok"] holds no marker and comes back whole; the text of the
    specification is cut at its first marker. *)
Lemma citation_truncation_witness :
  (~ occurs (str "[1]") (str "ok") /\
   cleaned_citation_string (str "ok") = str "ok")
  /\
  (str "Answer text [1][2] more"
     = str "Answer text " ++ str "[1]" ++ str "[2] more" /\
   (forall p' r',
      str "Answer text [1][2] more" = p' ++ str "[1]" ++ r' ->
      (length (str "Answer text ") <= length p')%nat) /\
   cleaned_citation_string (str "Answer text [1][2] more")
     = str "Answer text ").
Proof.
  assert (Hno : ~ occurs (str "[1]") (str "ok")).
  { intros (a & b & H). apply (f_equal (@length _)) in H.
    rewrite !length_app in H. simpl in H. lia. }
  assert (Hcut : str "Answer text [1][2] more"
                 = str "Answer text " ++ str "[1]" ++ str "[2] more")
    by reflexivity.
  assert (Hfirst : forall p' r',
             str "Answer text [1][2] more" = p' ++ str "[1]" ++ r' ->
             (length (str "Answer text ") <= length p')%nat).
  { intros p' r' H. unfold str in H. simpl in H.
    do 12 (destruct p' as [|? p']; [discriminate H | injection H as _ H]).
    simpl. lia. }
  destruct (citation_truncation (str "ok")) as (Habsent & _ & _).
  destruct (citation_truncation (str "Answer text [1][2] more"))
    as (_ & Hprefix & _).
  split; split; try assumption.
  - exact (Habsent Hno).
  - split; [assumption|]. exact (Hprefix _ _ Hcut Hfirst).
Defined.

(** The two-line prompt is typed as its first line, one soft newline, and
    its second line. *)
Lemma typing_round_trip_witness :
  type_prompt (staged (scene_showing [])) 1%nat two_lines (boot tt)
    = (Val tt,
       snd (type_prompt (staged (scene_showing [])) 1%nat two_lines (boot tt)))
  /\
  trace (snd (type_prompt (staged (scene_showing [])) 1%nat two_lines
                (boot tt)))
    = [Called (send_keys 1%nat (str "Explain X")) true;
       Called (send_keys 1%nat (Keys_SHIFT ++ Keys_ENTER)) true;
       Called (send_keys 1%nat (str "In two sentences")) true]
  /\
  join newline [str "Explain X"; str "In two sentences"] = two_lines.
Proof.
  assert (H : type_prompt (staged (scene_showing [])) 1%nat two_lines (boot tt)
    = (Val tt,
       snd (type_prompt (staged (scene_showing [])) 1%nat two_lines
              (boot tt)))) by (vm_compute; reflexivity).
  destruct (typing_round_trip _ _ _ _ H) as (Htrace & _ & Hjoin).
  split; [exact H|]. split.
  - rewrite Htrace. reflexivity.
  - exact Hjoin.
Defined.

(** C6 as stated fails: when the browser cannot be launched the request
    ends in an internal fault with no session opened and none closed. *)
Lemma failed_launch_opens_no_session :
  fst (run_perplexity (staged scene_no_launch) plain_detail None two_lines
         false (boot tt))
    = Exn (HTTPException 500 "Error processing request: session not created")
  /\
  trace (snd (run_perplexity (staged scene_no_launch) plain_detail None
                two_lines false (boot tt)))
    = [Called (Driver "./chrome-debug-4") false]
  /\
  sessions_opened
    (trace (snd (run_perplexity (staged scene_no_launch) plain_detail None
                   two_lines false (boot tt)))) = 0%nat
  /\
  sessions_closed
    (trace (snd (run_perplexity (staged scene_no_launch) plain_detail None
                   two_lines false (boot tt)))) = 0%nat.
Proof. repeat apply conj; vm_compute; reflexivity. Qed.

(** A request that succeeds and one whose submit click is intercepted each
    open one session and close one. *)
Lemma one_session_per_request :
  sessions_opened
    (trace (snd (run_perplexity (staged (scene_showing two_lines))
                   plain_detail None two_lines false (boot tt)))) = 1%nat
  /\
  sessions_closed
    (trace (snd (run_perplexity (staged (scene_showing two_lines))
                   plain_detail None two_lines false (boot tt)))) = 1%nat
  /\
  sessions_opened
    (trace (snd (run_perplexity (staged (scene_intercepted two_lines))
                   plain_detail None two_lines false (boot tt)))) = 1%nat
  /\
  sessions_closed
    (trace (snd (run_perplexity (staged (scene_intercepted two_lines))
                   plain_detail None two_lines false (boot tt)))) = 1%nat.
Proof. repeat apply conj; vm_compute; reflexivity. Qed.

(** The end-to-end scenario: the two-line prompt, default mode, answered 200
    with the text before the first citation marker. *)
Lemma ask_responses_witness :
  (exists s1 s2 s3 s4 s',
     perform (staged (scene_showing two_lines)) (Driver "./chrome-debug-4")
       (boot tt) = (Val tt, s1) /\
     perform (staged (scene_showing two_lines))
       (uc_open_with_reconnect "https://perplexity.ai" 6) s1 = (Val tt, s2) /\
     inputFieldCheck (staged (scene_showing two_lines)) two_lines false
       (slept 10000 s2) = (Val tt, s3) /\
     getResult (staged (scene_showing two_lines)) s3
       = (Val (str "Answer text "), s4) /\
     perform (staged (scene_showing two_lines)) quit s4 = (Val tt, s'))
  /\
  fst (POST_ask (staged (scene_showing two_lines)) plain_detail None
         {| prompt := two_lines; use_research_mode := false |} (boot tt))
    = {| status := 200; content := response_body (str "Answer text ") |}.
Proof.
  set (B := staged (scene_showing two_lines)).
  set (s1 := snd (perform B (Driver "./chrome-debug-4") (boot tt))).
  set (s2 := snd (perform B
                    (uc_open_with_reconnect "https://perplexity.ai" 6) s1)).
  set (s3 := snd (inputFieldCheck B two_lines false (slept 10000 s2))).
  set (s4 := snd (getResult B s3)).
  set (s' := snd (perform B quit s4)).
  assert (Hrun :
     perform B (Driver (getenv None "./chrome-debug-4")) (boot tt)
       = (Val tt, s1) /\
     perform B (uc_open_with_reconnect "https://perplexity.ai" 6) s1
       = (Val tt, s2) /\
     inputFieldCheck B
       (prompt {| prompt := two_lines; use_research_mode := false |})
       (use_research_mode {| prompt := two_lines; use_research_mode := false |})
       (slept 10000 s2) = (Val tt, s3) /\
     getResult B s3 = (Val (str "Answer text "), s4) /\
     perform B quit s4 = (Val tt, s'))
    by (repeat apply conj; vm_compute; reflexivity).
  split.
  - exists s1, s2, s3, s4, s'. exact Hrun.
  - destruct (ask_responses B plain_detail None
                {| prompt := two_lines; use_research_mode := false |}
                (boot tt)) as [_ Hiff].
    rewrite (proj2 (Hiff (str "Answer text ") s')
               (ex_intro _ s1 (ex_intro _ s2 (ex_intro _ s3
                  (ex_intro _ s4 Hrun))))).
    reflexivity.
Defined.

(** The resilience scenario: no mode toggle on the page, research mode
    requested; the selection returns [False] and the request is answered
    200. *)
Lemma research_mode_non_fatal_witness :
  (forall s0 : sys unit, exists x s1,
     perform (staged (scene_showing two_lines))
       (find_element "[data-testid='search-mode-research']") s0
       = (Exn x, s1))
  /\
  fst (select_research_mode (staged (scene_showing two_lines)) (boot tt))
    = Val false
  /\
  mode_and_submit (staged (scene_showing two_lines)) two_lines true (boot tt)
    = mode_and_submit (staged (scene_showing two_lines)) two_lines false
        (snd (select_research_mode (staged (scene_showing two_lines))
                (boot tt)))
  /\
  fst (POST_ask (staged (scene_showing two_lines)) plain_detail None
         {| prompt := two_lines; use_research_mode := true |} (boot tt))
    = {| status := 200; content := response_body (str "Answer text ") |}.
Proof.
  assert (Habsent : forall s0 : sys unit, exists x s1,
     perform (staged (scene_showing two_lines))
       (find_element "[data-testid='search-mode-research']") s0
       = (Exn x, s1)).
  { intros s0. eexists. eexists. reflexivity. }
  destruct (research_mode_non_fatal (staged (scene_showing two_lines))
              two_lines (boot tt)) as ((b & s' & Hsel & Hsame) & Hgone & _).
  split; [exact Habsent|]. split; [exact (proj1 (Hgone Habsent))|].
  split; [|vm_compute; reflexivity].
  rewrite Hsame. rewrite Hsel. reflexivity.
Defined.



(** The field is found empty: the two-line prompt goes out in one
    [send_keys], its newline in it, none of the keys typed at first. *)
Lemma retyped_raw_witness :
  safe_find_input (staged (scene_showing [])) (boot tt)
    = (Val 1%nat,
       Sys 0 tt [Called (find_element "div[contenteditable='true']") true])
  /\
  read_text (staged (scene_showing [])) 1%nat
    (Sys 0 tt [Called (find_element "div[contenteditable='true']") true])
    = (Val [],
       Sys 0 tt [Called (find_element "div[contenteditable='true']") true;
                 Called (get_attribute 1%nat "textContent") true;
                 Called (get_text 1%nat) true])
  /\
  strip [] = []
  /\
  keys_sent (trace (snd (keyboard_submit (staged (scene_showing []))
                           two_lines (boot tt))))
    = [two_lines; Keys_CONTROL ++ Keys_RETURN]
  /\
  ~ In two_lines (with_soft_newlines (split newline two_lines)).
Proof.
  assert (H1 : safe_find_input (staged (scene_showing [])) (boot tt)
    = (Val 1%nat,
       Sys 0 tt [Called (find_element "div[contenteditable='true']") true]))
    by reflexivity.
  assert (H2 : read_text (staged (scene_showing [])) 1%nat
    (Sys 0 tt [Called (find_element "div[contenteditable='true']") true])
    = (Val [],
       Sys 0 tt [Called (find_element "div[contenteditable='true']") true;
                 Called (get_attribute 1%nat "textContent") true;
                 Called (get_text 1%nat) true])) by reflexivity.
  assert (H3 : strip [] = []) by reflexivity.
  destruct (retyped_raw (staged (scene_showing [])) two_lines (boot tt)
              H1 H2 H3) as (_ & _ & Hnever).
  repeat (split; [assumption || reflexivity|]).
  apply Hnever. apply contains_In. reflexivity.
Defined.
